(** * Triage_app: the patient monitoring pipeline and the triage workflow

    A shallow embedding of [streamlit_app.py]: the trend helper
    [calculate_slope], the classifier
    [patient_monitoring_pipeline_integrated] with its threshold tables, and
    the session-state transitions of the Streamlit pages.

    Conventions of the embedding.
    - Readings are Python [int]s (the widgets of step 2 are created with
      integer bounds, the simulated history is made of integers): [Z].
    - A Python [dict] with string keys is a [gmap string _]; subscripting a
      missing key raises [KeyError].
    - A Python [list] is a [list]; [l.append(x)] is [l ++ [x]].
    - [numpy.polyfit] and the built-in [round] work on binary64 floats and
      are not code of this repository: they are parameters of the
      development.  The literal [0.0] is the primitive float [0]. *)

From Stdlib Require Import ZArith String Ascii List Uint63 PrimFloat.
From stdpp Require Import gmap strings list fin_maps pretty.

Open Scope Z_scope.

(** ** Python strings (ASCII fragment) *)

Module PyStr.

Definition is_upper (c : ascii) : bool :=
  let n := nat_of_ascii c in (65 <=? n)%nat && (n <=? 90)%nat.

Definition is_lower (c : ascii) : bool :=
  let n := nat_of_ascii c in (97 <=? n)%nat && (n <=? 122)%nat.

Definition is_cased (c : ascii) : bool := is_upper c || is_lower c.

Definition to_upper (c : ascii) : ascii :=
  if is_lower c then ascii_of_nat (nat_of_ascii c - 32) else c.

Definition to_lower (c : ascii) : ascii :=
  if is_upper c then ascii_of_nat (nat_of_ascii c + 32) else c.

(** [s.replace(old, new)] for one-character [old] and [new]. *)
Fixpoint replace (old new : ascii) (s : string) : string :=
  match s with
  | EmptyString => EmptyString
  | String c rest =>
      String (if Ascii.eqb c old then new else c) (replace old new rest)
  end.

(** [s.title()]: a character that follows a cased character is lowered,
    any other character is put in title case. *)
Fixpoint title_from (previous_is_cased : bool) (s : string) : string :=
  match s with
  | EmptyString => EmptyString
  | String c rest =>
      String (if previous_is_cased then to_lower c else to_upper c)
             (title_from (is_cased c) rest)
  end.

Definition title (s : string) : string := title_from false s.

End PyStr.

(** ** Exceptions *)

Inductive exn : Type :=
| KeyError (key : string)
| RerunException.   (* raised by [st.rerun()], caught by the script runner *)

Inductive result (A : Type) : Type :=
| Ok (a : A)
| Raise (e : exn).

Arguments Ok {A} a.
Arguments Raise {A} e.

(** Sequencing: the first exception raised ends the computation. *)
#[global] Instance result_bind : MBind result := fun A B k r =>
  match r with
  | Ok a => k a
  | Raise e => Raise e
  end.

#[global] Instance result_ret : MRet result := fun A a => Ok a.

(** [d[k]] on a dict. *)
Definition getitem {V : Type} (d : gmap string V) (k : string) : result V :=
  match d !! k with
  | Some v => Ok v
  | None => Raise (KeyError k)
  end.

(** ** Section 1 of the script: tables *)

Definition SPECIALIST_MAP : list (string * string) :=
  [ ("Wound/Skin", "Dermatologist or General Surgeon");
    ("Chest Pain", "Cardiologist");
    ("Breathing Issue", "Pulmonologist");
    ("Fever/Infection", "General Physician");
    ("Nerve/Numbness", "Neurologist") ].

Definition METRICS : list string := ["heart_rate"; "spo2"; "pain_score"].

Definition SAFE_RANGES : gmap string (Z * Z) :=
  <["heart_rate" := (60, 100)]>
  (<["spo2" := (95, 100)]>
  (<["pain_score" := (0, 3)]> ∅)).

Definition RED_FLAG_THRESHOLDS : gmap string (Z * Z) :=
  <["heart_rate" := (40, 130)]>
  (<["spo2" := (0, 90)]>
  (<["pain_score" := (8, 10)]> ∅)).

(** ** Results of the classifier *)

Record metric_row : Type := MetricRow {
  row_Metric : string;
  row_Trend : string;
  row_Critical_Alert : string;
  row_Slope : float
}.

Record analysis : Type := Analysis {
  metrics : list metric_row;
  overall_status : string;
  worsening_count : Z;
  red_flag_count : Z;
  reasons : list string
}.

(** The four locals the loop of the classifier updates. *)
Record loop_state : Type := LoopState {
  ls_metric_results : list metric_row;
  ls_worsening_count : Z;
  ls_red_flag_count : Z;
  ls_reasons : list string
}.

Definition loop_init : loop_state := LoopState [] 0 0 [].

(** [np.arange(n)] *)
Definition arange (n : nat) : list Z := map Z.of_nat (seq 0 n).

(** [metric.replace('_', ' ').title()] *)
Definition display_name (metric : string) : string :=
  PyStr.title (PyStr.replace "_" " " metric).

(** The [if]/[elif] chain of lines 66-73. *)
Definition is_worsening_of (metric : string) (delta : Z) : bool :=
  if String.eqb metric "spo2" && (delta <? -2) then true
  else if String.eqb metric "pain_score" && (delta >? 2) then true
  else if String.eqb metric "heart_rate" && (delta >? 5) then true
  else false.

(** Lines 75-78, given the entry of [RED_FLAG_THRESHOLDS]. *)
Definition red_flag_of (bounds : Z * Z) (current : Z) : bool :=
  (current <? fst bounds) || (current >? snd bounds).

Section Classifier.

(** [polyfit x y deg] stands for [np.polyfit(x, y, deg)] at degree 1,
    returning the pair (slope, intercept); [round2 f] for [round(f, 2)]. *)
Variable polyfit : list Z -> list Z -> Z -> float * float.
Variable round2 : float -> float.

Definition calculate_slope (values : list Z) : float :=
  if Z.of_nat (length values) <? 2 then 0%float
  else
    let x := arange (length values) in
    let y := values in
    let '(slope, _) := polyfit x y 1 in
    slope.

(** One iteration of [for metric in METRICS]. *)
Definition loop_body (vitals_history : gmap string (list Z))
    (metric : string) (st : loop_state) : result loop_state :=
  data ← getitem vitals_history metric;
  match data with
  | [] => Ok st
  | baseline :: _ =>
      let current := List.last data baseline in
      let delta := current - baseline in
      let slope := calculate_slope data in
      let is_worsening := is_worsening_of metric delta in
      bounds ← getitem RED_FLAG_THRESHOLDS metric;
      let red_flag := red_flag_of bounds current in
      let st1 :=
        if is_worsening then
          LoopState (ls_metric_results st)
                    (ls_worsening_count st + 1)
                    (ls_red_flag_count st)
                    (ls_reasons st ++
                       [display_name metric +:+ " is worsening over time."])
        else st in
      let st2 :=
        if red_flag then
          LoopState (ls_metric_results st1)
                    (ls_worsening_count st1)
                    (ls_red_flag_count st1 + 1)
                    (ls_reasons st1 ++
                       ["CRITICAL: " +:+ display_name metric
                          +:+ " crossed safety limits."])
        else st1 in
      Ok (LoopState
            (ls_metric_results st2 ++
               [MetricRow (display_name metric)
                          (if is_worsening then "Worsening" else "Stable")
                          (if red_flag then "YES ☢️" else "No")
                          (round2 slope)])
            (ls_worsening_count st2)
            (ls_red_flag_count st2)
            (ls_reasons st2))
  end.

Fixpoint run_loop (vitals_history : gmap string (list Z))
    (ms : list string) (st : loop_state) : result loop_state :=
  match ms with
  | [] => Ok st
  | metric :: rest =>
      st' ← loop_body vitals_history metric st;
      run_loop vitals_history rest st'
  end.

(** Lines 97-105. *)
Definition finish_analysis (st : loop_state) : analysis :=
  let overall_status :=
    if (ls_red_flag_count st >=? 1) || (ls_worsening_count st >=? 1)
    then "RED_FLAG" else "MONITOR" in
  Analysis (ls_metric_results st) overall_status
           (ls_worsening_count st) (ls_red_flag_count st) (ls_reasons st).

(** The classifier over an arbitrary list of metric names; the script
    runs it over [METRICS]. *)
Definition pipeline_over (ms : list string)
    (vitals_history : gmap string (list Z)) : result analysis :=
  st ← run_loop vitals_history ms loop_init;
  Ok (finish_analysis st).

Definition patient_monitoring_pipeline_integrated
    (vitals_history : gmap string (list Z)) : result analysis :=
  pipeline_over METRICS vitals_history.

End Classifier.

(** A vitals history holding the three monitored series. *)
Definition vh_of (hr spo2 pain : list Z) : gmap string (list Z) :=
  <["heart_rate" := hr]> (<["spo2" := spo2]> (<["pain_score" := pain]> ∅)).

(** [d[k]] on a dict whose insertion order is kept. *)
Fixpoint assoc_getitem {V : Type} (d : list (string * V)) (k : string)
    : result V :=
  match d with
  | [] => Raise (KeyError k)
  | (k', v) :: rest => if String.eqb k k' then Ok v else assoc_getitem rest k
  end.

(** ** Section 2 of the script: session state *)

Record patient_info_t : Type := PatientInfo { name : string; age : string }.
Record rf_t : Type := RF { airway : string; bleed : string }.
Record esi_t : Type := ESI { worsening : string }.

(** [st.session_state.data]; an uploaded file is known by its name. *)
Record encounter : Type := Encounter {
  patient_info : patient_info_t;
  rf : rf_t;
  vitals_history : gmap string (list Z);
  esi : esi_t;
  photo : option string;
  main_symptom : string
}.

(** [st.session_state]: each of its three keys may be missing. *)
Record session_state : Type := SessionState {
  current_page : option string;
  step : option Z;
  data : option encounter
}.

(** The session once the three keys are known to be there. *)
Record session : Type := Session {
  s_current_page : string;
  s_step : Z;
  s_data : encounter
}.

Definition empty_session_state : session_state := SessionState None None None.

Definition initial_data : encounter :=
  Encounter (PatientInfo "Anonymous" "N/A") (RF "No" "No")
            (vh_of [] [] []) (ESI "No") None "Wound/Skin".

(** Lines 114-126: a key is set only when it is missing. *)
Definition initialise (ss : session_state) : session :=
  Session (match current_page ss with Some p => p | None => "Home" end)
          (match step ss with Some n => n | None => 0 end)
          (match data ss with Some d => d | None => initial_data end).

Definition store (s : session) : session_state :=
  SessionState (Some (s_current_page s)) (Some (s_step s)) (Some (s_data s)).

(** ** A script run: state and exceptions *)

Definition script (A : Type) : Type := session -> result A * session.

#[global] Instance script_ret : MRet script := fun A a s => (Ok a, s).

#[global] Instance script_bind : MBind script := fun A B k m s =>
  match m s with
  | (Ok a, s') => k a s'
  | (Raise e, s') => (Raise e, s')
  end.

Definition get_session : script session := fun s => (Ok s, s).
Definition get_data : script encounter := fun s => (Ok (s_data s), s).
Definition raise {A : Type} (e : exn) : script A := fun s => (Raise e, s).
Definition liftR {A : Type} (r : result A) : script A := fun s => (r, s).

Definition set_step (n : Z) : script unit := fun s =>
  (Ok tt, Session (s_current_page s) n (s_data s)).
Definition set_current_page (p : string) : script unit := fun s =>
  (Ok tt, Session p (s_step s) (s_data s)).
Definition set_data (f : encounter -> encounter) : script unit := fun s =>
  (Ok tt, Session (s_current_page s) (s_step s) (f (s_data s))).

Definition with_patient_info (v : patient_info_t) (d : encounter) :=
  Encounter v (rf d) (vitals_history d) (esi d) (photo d) (main_symptom d).
Definition with_rf (v : rf_t) (d : encounter) :=
  Encounter (patient_info d) v (vitals_history d) (esi d) (photo d)
            (main_symptom d).
Definition with_vitals_history (v : gmap string (list Z)) (d : encounter) :=
  Encounter (patient_info d) (rf d) v (esi d) (photo d) (main_symptom d).
Definition with_esi (v : esi_t) (d : encounter) :=
  Encounter (patient_info d) (rf d) (vitals_history d) v (photo d)
            (main_symptom d).
Definition with_photo (v : option string) (d : encounter) :=
  Encounter (patient_info d) (rf d) (vitals_history d) (esi d) v
            (main_symptom d).
Definition with_main_symptom (v : string) (d : encounter) :=
  Encounter (patient_info d) (rf d) (vitals_history d) (esi d) (photo d) v.

(** [st.rerun()] *)
Definition rerun : script unit := raise RerunException.

(** [st.session_state.data["vitals_history"][metric].append(x)] *)
Definition append_reading (metric : string) (x : Z) : script unit :=
  d ← get_data;
  series ← liftR (getitem (vitals_history d) metric);
  set_data (with_vitals_history
              (<[metric := series ++ [x]]> (vitals_history d))).

(** What the user did since the last run: the button pressed, with the
    values of the widgets of the page. *)
Inductive event : Type :=
| NoClick
| StartRealTriage
| HourlyCheckup
| BeginAssessment (name age : string)
| Continue (q1 q2 : string)
| Next (hr spo2 pain : Z)
| AnalyzeFlow (symp c1 : string)
| PhotoStep (up_file : option string) (complete : bool)
| Finish
| BackToHome.

(** What the summary page computes before it draws its Finish button. *)
Record summary_view : Type := SummaryView {
  sv_analysis : analysis;
  sv_specialist : string;
  sv_qr_data : string
}.

(** [d[key][-1] if d[key] else "N/A"], formatted by the f-string. *)
Definition latest_or_na (series : list Z) : string :=
  match series with
  | [] => "N/A"
  | x :: _ => pretty (List.last series x)
  end.

Section Workflow.

Variable polyfit : list Z -> list Z -> Z -> float * float.
Variable round2 : float -> float.

Definition home_page (e : event) : script unit :=
  match e with
  | StartRealTriage =>
      set_step 0;; set_current_page "Patient Triage";; rerun
  | HourlyCheckup =>
      set_data (with_patient_info (PatientInfo "Simulated Patient" "45"));;
      set_data (with_vitals_history
                  (vh_of [75; 82; 95; 110; 125; 135]
                         [98; 97; 95; 92; 89; 87]
                         [2; 3; 5; 7; 8; 9]));;
      set_data (with_main_symptom "Breathing Issue");;
      set_current_page "Clinician Portal";;
      rerun
  | _ => mret tt
  end.

(** Lines 239-282. *)
Definition summary (d : encounter) : result summary_view :=
  an ← patient_monitoring_pipeline_integrated polyfit round2
         (vitals_history d);
  hr ← getitem (vitals_history d) "heart_rate";
  spo ← getitem (vitals_history d) "spo2";
  specialist ← assoc_getitem SPECIALIST_MAP (main_symptom d);
  Ok (SummaryView an specialist
        ("NAME:" +:+ name (patient_info d) +:+ "|" +:+
         "AGE:" +:+ age (patient_info d) +:+ "|" +:+
         "STATUS:" +:+ overall_status an +:+ "|" +:+
         "SPECIALIST:" +:+ specialist +:+ "|" +:+
         "VITALS:" +:+ latest_or_na hr +:+ "bpm," +:+ latest_or_na spo +:+ "%|" +:+
         "PHOTO_REF:" +:+
           (match photo d with Some _ => "AVAILABLE" | None => "NONE" end))).

Definition triage_page (e : event) : script unit :=
  s ← get_session;
  if s_step s =? 0 then
    match e with
    | BeginAssessment name age =>
        set_data (with_patient_info (PatientInfo name age));;
        set_step 1;; rerun
    | _ => mret tt
    end
  else if s_step s =? 1 then
    match e with
    | Continue q1 q2 =>
        set_data (with_rf (RF q1 q2));;
        set_step 2;; rerun
    | _ => mret tt
    end
  else if s_step s =? 2 then
    match e with
    | Next hr spo2 pain =>
        append_reading "heart_rate" hr;;
        append_reading "spo2" spo2;;
        append_reading "pain_score" pain;;
        set_step 3;; rerun
    | _ => mret tt
    end
  else if s_step s =? 3 then
    match e with
    | AnalyzeFlow symp c1 =>
        set_data (with_main_symptom symp);;
        set_data (with_esi (ESI c1));;
        set_step (if String.eqb symp "Wound/Skin"
                     || String.eqb symp "Fever/Infection" then 4 else 5);;
        rerun
    | _ => mret tt
    end
  else if s_step s =? 4 then
    match e with
    | PhotoStep up_file complete =>
        match up_file with
        | Some f => set_data (with_photo (Some f))
        | None => mret tt
        end;;
        if complete then set_step 5;; rerun else mret tt
    | _ => mret tt
    end
  else if s_step s =? 5 then
    _ ← liftR (summary (s_data s));
    match e with
    | Finish =>
        set_step 0;; set_current_page "Home";; rerun
    | _ => mret tt
    end
  else mret tt.

(** Lines 293-330. *)
Definition clinician_portal (e : event) : script unit :=
  match e with
  | BackToHome => set_step 0;; set_current_page "Home";; rerun
  | _ =>
      d ← get_data;
      _ ← liftR (patient_monitoring_pipeline_integrated polyfit round2
                   (vitals_history d));
      _ ← liftR (assoc_getitem SPECIALIST_MAP (main_symptom d));
      mret tt
  end.

(** Section 3 and 4 of the script: the page shown is chosen by
    [current_page]. *)
Definition pages (e : event) : script unit :=
  s ← get_session;
  if String.eqb (s_current_page s) "Home" then home_page e
  else if String.eqb (s_current_page s) "Patient Triage" then triage_page e
  else if String.eqb (s_current_page s) "Clinician Portal"
  then clinician_portal e
  else mret tt.

(** One run of the whole script on the stored session state. *)
Definition script_run (e : event) (ss : session_state)
    : result unit * session_state :=
  let '(r, s) := pages e (initialise ss) in (r, store s).

(** One user action: the run it triggers and, when that run asks for it,
    the rerun, in which no button is pressed. *)
Definition interact (e : event) (ss : session_state)
    : result unit * session_state :=
  match script_run e ss with
  | (Raise RerunException, ss') => script_run NoClick ss'
  | other => other
  end.

Fixpoint interactions (es : list event) (ss : session_state)
    : session_state :=
  match es with
  | [] => ss
  | e :: rest => interactions rest (snd (interact e ss))
  end.

End Workflow.

(** ** Reference numerics

    One concrete choice for the two numerical parameters, used to state
    closed examples: the least-squares slope from the normal equations
    (sums taken exactly, one binary64 division) and a rounding to two
    decimals through the nearest integer of [100 * f].  No statement below
    depends on this choice: the theorems are proved for arbitrary
    parameters. *)

Module Numerics.

Definition float_of_Z (z : Z) : float :=
  if z <? 0 then PrimFloat.opp (PrimFloat.of_uint63 (Uint63.of_Z (- z)))
  else PrimFloat.of_uint63 (Uint63.of_Z z).

Definition sum_Z (l : list Z) : Z := fold_right Z.add 0 l.

Definition polyfit (x y : list Z) (deg : Z) : float * float :=
  let n := Z.of_nat (length x) in
  let sx := sum_Z x in
  let sy := sum_Z y in
  let sxy := sum_Z (zip_with Z.mul x y) in
  let sxx := sum_Z (zip_with Z.mul x x) in
  let den := float_of_Z (n * sxx - sx * sx) in
  let slope := PrimFloat.div (float_of_Z (n * sxy - sx * sy)) den in
  let icpt := PrimFloat.div (float_of_Z (sy * sxx - sx * sxy)) den in
  (slope, icpt).

Definition round2 (f : float) : float :=
  let y := PrimFloat.mul f 100%float in
  let c := 6755399441055744%float in
  if PrimFloat.ltb (PrimFloat.abs y) 2251799813685248%float
  then PrimFloat.div (PrimFloat.sub (PrimFloat.add y c) c) 100%float
  else f.

End Numerics.

(** The classifier with the reference numerics. *)
Definition classify : gmap string (list Z) -> result analysis :=
  patient_monitoring_pipeline_integrated Numerics.polyfit Numerics.round2.


(** * Properties *)

(** ** What one series contributes *)

(** [data[-1] - data[0]]; 0 stands in for the readings of an empty series,
    which the classifier never takes. *)
Definition delta (data : list Z) : Z := List.last data 0 - hd 0 data.

(** The worsening rule of a metric on its delta. *)
Definition worsening_rule (metric : string) (d : Z) : Prop :=
  (metric = "spo2" /\ d < -2) \/
  (metric = "pain_score" /\ d > 2) \/
  (metric = "heart_rate" /\ d > 5).

(** Whether the loop counts the series of [metric] as worsening, and as a
    red flag. *)
Definition worsens (metric : string) (data : list Z) : bool :=
  match data with
  | [] => false
  | baseline :: _ => is_worsening_of metric (List.last data baseline - baseline)
  end.

Definition flags (metric : string) (data : list Z) : bool :=
  match data, RED_FLAG_THRESHOLDS !! metric with
  | baseline :: _, Some bounds => red_flag_of bounds (List.last data baseline)
  | _, _ => false
  end.

(** All monitored metrics are keys of the mapping. *)
Definition has_metrics (vh : gmap string (list Z)) : Prop :=
  Forall (fun m => is_Some (vh !! m)) METRICS.

(** The series of a metric, and the number of metrics of a list whose
    series satisfies [f]. *)
Definition series (vh : gmap string (list Z)) (metric : string) : list Z :=
  default [] (vh !! metric).

Definition count_over (f : string -> list Z -> bool)
    (vh : gmap string (list Z)) (ms : list string) : Z :=
  foldr (fun m acc => Z.b2z (f m (series vh m)) + acc) 0 ms.

(** The session of one patient, from the first run of the script up to
    the summary stage. *)
Definition session_at_summary : session_state :=
  interactions Numerics.polyfit Numerics.round2
    [ StartRealTriage;
      BeginAssessment "Asha" "34";
      Continue "No" "No";
      Next 75 98 2;
      AnalyzeFlow "Chest Pain" "No" ]
    empty_session_state.

(** The encounter entered in that session. *)
Definition encounter_at_summary : encounter :=
  Encounter (PatientInfo "Asha" "34") (RF "No" "No") (vh_of [75] [98] [2])
            (ESI "No") None "Chest Pain".

(** The row and the reasons one series adds to the result. *)
Definition row_of (polyfit : list Z -> list Z -> Z -> float * float)
    (round2 : float -> float) (metric : string) (data : list Z)
    : list metric_row :=
  match data with
  | [] => []
  | _ :: _ =>
      [MetricRow (display_name metric)
                 (if worsens metric data then "Worsening" else "Stable")
                 (if flags metric data then "YES ☢️" else "No")
                 (round2 (calculate_slope polyfit data))]
  end.

Definition reasons_of (metric : string) (data : list Z) : list string :=
  (if worsens metric data
   then [display_name metric +:+ " is worsening over time."] else [])
  ++ (if flags metric data
      then ["CRITICAL: " +:+ display_name metric +:+ " crossed safety limits."]
      else []).

(** The first and the last reading of a series. *)
Definition ends (data : list Z) : list Z :=
  match data with
  | [] => []
  | baseline :: _ => [baseline; List.last data baseline]
  end.

(** The first monitored metric that is not a key of the mapping. *)
Definition first_missing (vh : gmap string (list Z)) : option string :=
  List.find (fun m => bool_decide (vh !! m = None)) METRICS.

(** What a row shows besides its slope. *)
Definition row_labels (r : metric_row) : string * string * string :=
  (row_Metric r, row_Trend r, row_Critical_Alert r).

(** The options of the widgets: the select box of step 3 offers
    [list(SPECIALIST_MAP.keys())], the radio buttons three answers, the
    number inputs and the slider their ranges. *)
Definition symptom_options : list string := map fst SPECIALIST_MAP.

Definition answer_options : list string := ["No"; "Yes"; "Not Sure"].

Definition widget_valid (e : event) : Prop :=
  match e with
  | Continue q1 q2 => q1 ∈ answer_options /\ q2 ∈ answer_options
  | Next hr spo2 pain =>
      30 <= hr <= 200 /\ 50 <= spo2 <= 100 /\ 0 <= pain <= 10
  | AnalyzeFlow symp c1 => symp ∈ symptom_options /\ c1 ∈ answer_options
  | _ => True
  end.

(** Whether the button of an event is drawn on the page of a session. *)
Definition shown (e : event) (s : session) : bool :=
  match e with
  | NoClick => false
  | StartRealTriage | HourlyCheckup => String.eqb (s_current_page s) "Home"
  | BeginAssessment _ _ =>
      String.eqb (s_current_page s) "Patient Triage" && (s_step s =? 0)
  | Continue _ _ =>
      String.eqb (s_current_page s) "Patient Triage" && (s_step s =? 1)
  | Next _ _ _ =>
      String.eqb (s_current_page s) "Patient Triage" && (s_step s =? 2)
  | AnalyzeFlow _ _ =>
      String.eqb (s_current_page s) "Patient Triage" && (s_step s =? 3)
  | PhotoStep _ _ =>
      String.eqb (s_current_page s) "Patient Triage" && (s_step s =? 4)
  | Finish =>
      String.eqb (s_current_page s) "Patient Triage" && (s_step s =? 5)
  | BackToHome => String.eqb (s_current_page s) "Clinician Portal"
  end.

(** The symptoms after which step 3 asks for a photo. *)
Definition needs_photo (symp : string) : bool :=
  String.eqb symp "Wound/Skin" || String.eqb symp "Fever/Infection".

(** What every session of the application satisfies: the history holds
    exactly the three series, of one length, the symptom is one of the
    table, and page and step are those of the script. *)
Definition session_ok (s : session) : Prop :=
  (exists hr spo2 pain,
     vitals_history (s_data s) = vh_of hr spo2 pain /\
     length hr = length spo2 /\ length spo2 = length pain) /\
  main_symptom (s_data s) ∈ symptom_options /\
  s_current_page s ∈ ["Home"; "Patient Triage"; "Clinician Portal"] /\
  0 <= s_step s <= 5.

(** Tactics that run a page of the script on a session. *)
Ltac script_unfold :=
  unfold pages, home_page, triage_page, clinician_portal, append_reading,
    rerun, raise, set_step, set_current_page, set_data, get_session,
    get_data, liftR, mbind, mret, script_bind, script_ret;
  cbn beta iota zeta delta [s_current_page s_step s_data fst snd].

Ltac script_cases :=
  repeat (first [ done | case_match ]; simplify_eq;
          cbn beta iota zeta delta
              [s_current_page s_step s_data fst snd andb orb] in *).

Ltac script_leaf :=
  unfold rerun, raise, set_step, set_current_page, set_data, get_data,
    liftR, mbind, mret, script_bind, script_ret;
  cbn beta iota zeta delta [s_current_page s_step s_data fst snd].

Lemma last_cons_default (b d : Z) (l : list Z) :
  List.last (b :: l) d = List.last (b :: l) 0.
Proof.
  revert b. induction l as [|x l IH]; intros b; [reflexivity|].
  change (List.last (x :: l) d = List.last (x :: l) 0). apply IH.
Qed.

Lemma delta_cons (b : Z) (l : list Z) :
  delta (b :: l) = List.last (b :: l) b - b.
Proof. unfold delta. by rewrite (last_cons_default b b). Qed.

Lemma is_worsening_of_rule (metric : string) (d : Z) :
  is_worsening_of metric d = true <-> worsening_rule metric d.
Proof.
  unfold is_worsening_of, worsening_rule.
  destruct (String.eqb_spec metric "spo2") as [->|Hs];
    [| destruct (String.eqb_spec metric "pain_score") as [->|Hp];
       [| destruct (String.eqb_spec metric "heart_rate") as [->|Hh]]];
    simpl;
    try destruct (Z.ltb_spec d (-2));
    try destruct (Z.gtb_spec d 2);
    try destruct (Z.gtb_spec d 5);
    simpl; (split; [intros Hw | intros [[E Hw]|[[E Hw]|[E Hw]]]]);
    try discriminate; try reflexivity; try contradiction; try lia;
    first [ left; split; [reflexivity | lia]
          | right; left; split; [reflexivity | lia]
          | right; right; split; [reflexivity | lia] ].
Qed.

Lemma worsens_rule (metric : string) (data : list Z) :
  worsens metric data = true <-> data <> [] /\ worsening_rule metric (delta data).
Proof.
  destruct data as [|b l].
  - simpl. split; [discriminate | intros [H _]; by destruct H].
  - unfold worsens. rewrite is_worsening_of_rule, delta_cons.
    split; [intros H; split; [discriminate | exact H] | tauto].
Qed.

Lemma worsens_nil (metric : string) : worsens metric [] = false.
Proof. reflexivity. Qed.

Lemma flags_nil (metric : string) : flags metric [] = false.
Proof. reflexivity. Qed.

Lemma b2z_range (b : bool) : 0 <= Z.b2z b <= 1.
Proof. destruct b; simpl; lia. Qed.

Section ClassifierFacts.

Variable polyfit : list Z -> list Z -> Z -> float * float.
Variable round2 : float -> float.

(** *** The loop body *)

Lemma loop_body_absent vh metric st :
  vh !! metric = None -> loop_body polyfit round2 vh metric st = Raise (KeyError metric).
Proof. intros H. unfold loop_body, getitem. by rewrite H. Qed.

Lemma loop_body_empty vh metric st :
  vh !! metric = Some [] -> loop_body polyfit round2 vh metric st = Ok st.
Proof. intros H. unfold loop_body, getitem. by rewrite H. Qed.

Lemma loop_body_counts vh metric st data :
  vh !! metric = Some data ->
  is_Some (RED_FLAG_THRESHOLDS !! metric) ->
  exists st',
    loop_body polyfit round2 vh metric st = Ok st' /\
    ls_worsening_count st' =
      ls_worsening_count st + Z.b2z (worsens metric data) /\
    ls_red_flag_count st' =
      ls_red_flag_count st + Z.b2z (flags metric data) /\
    Z.of_nat (length (ls_reasons st')) =
      Z.of_nat (length (ls_reasons st))
      + Z.b2z (worsens metric data) + Z.b2z (flags metric data).
Proof.
  intros Hd [bounds Hb].
  unfold loop_body, getitem, flags. rewrite Hd, Hb.
  destruct data as [|b l]; simpl.
  - exists st. repeat split; lia.
  - destruct (is_worsening_of metric _), (red_flag_of bounds _);
      simpl; eexists; (split; [reflexivity|]); simpl;
      rewrite ?length_app; simpl; repeat split; lia.
Qed.

(** *** The loop *)

Lemma run_loop_counts vh ms st :
  Forall (fun m => is_Some (vh !! m)) ms ->
  Forall (fun m => is_Some (RED_FLAG_THRESHOLDS !! m)) ms ->
  exists st',
    run_loop polyfit round2 vh ms st = Ok st' /\
    ls_worsening_count st' =
      ls_worsening_count st + count_over worsens vh ms /\
    ls_red_flag_count st' =
      ls_red_flag_count st + count_over flags vh ms /\
    Z.of_nat (length (ls_reasons st')) =
      Z.of_nat (length (ls_reasons st))
      + count_over worsens vh ms + count_over flags vh ms.
Proof.
  intros Hvh Hth. revert st.
  induction ms as [|m ms IH]; intros st.
  - exists st. simpl. repeat split; lia.
  - inversion Hvh as [|? ? [data Hm] Hvh']; subst.
    inversion Hth as [|? ? Hbm Hth']; subst.
    destruct (loop_body_counts vh m st data Hm Hbm)
      as (st1 & Hst1 & Hw1 & Hr1 & Hl1).
    destruct (IH Hvh' Hth' st1) as (st2 & Hst2 & Hw2 & Hr2 & Hl2).
    exists st2. split.
    + simpl. rewrite Hst1. exact Hst2.
    + assert (Hs : series vh m = data) by (unfold series; by rewrite Hm).
      simpl. rewrite Hs. repeat split; lia.
Qed.

Lemma count_over_nonneg f vh ms : 0 <= count_over f vh ms.
Proof.
  induction ms as [|m ms IH]; simpl; [lia|].
  pose proof (b2z_range (f m (series vh m))). lia.
Qed.

Lemma thresholds_cover_METRICS :
  Forall (fun m => is_Some (RED_FLAG_THRESHOLDS !! m)) METRICS.
Proof. repeat constructor; by eexists. Qed.

(** *** The whole classifier *)

Lemma pipeline_counts vh :
  has_metrics vh ->
  exists r,
    patient_monitoring_pipeline_integrated polyfit round2 vh = Ok r /\
    worsening_count r = count_over worsens vh METRICS /\
    red_flag_count r = count_over flags vh METRICS /\
    Z.of_nat (length (reasons r)) = worsening_count r + red_flag_count r /\
    overall_status r =
      (if (red_flag_count r >=? 1) || (worsening_count r >=? 1)
       then "RED_FLAG" else "MONITOR").
Proof.
  intros Hvh.
  destruct (run_loop_counts vh METRICS loop_init Hvh thresholds_cover_METRICS)
    as (st & Hst & Hw & Hr & Hl).
  exists (finish_analysis st). split.
  - unfold patient_monitoring_pipeline_integrated, pipeline_over.
    by rewrite Hst.
  - simpl in *. repeat split; lia.
Qed.

Lemma pipeline_three vh hr spo2 pain :
  vh !! "heart_rate" = Some hr ->
  vh !! "spo2" = Some spo2 ->
  vh !! "pain_score" = Some pain ->
  exists r,
    patient_monitoring_pipeline_integrated polyfit round2 vh = Ok r /\
    worsening_count r =
      Z.b2z (worsens "heart_rate" hr) + Z.b2z (worsens "spo2" spo2)
      + Z.b2z (worsens "pain_score" pain) /\
    red_flag_count r =
      Z.b2z (flags "heart_rate" hr) + Z.b2z (flags "spo2" spo2)
      + Z.b2z (flags "pain_score" pain).
Proof.
  intros Hh Hs Hp.
  assert (Hvh : has_metrics vh) by (repeat constructor; by eexists).
  destruct (pipeline_counts vh Hvh) as (r & Hr & Hw & Hf & _).
  exists r. split; [exact Hr|].
  rewrite Hw, Hf. unfold METRICS, count_over, series. simpl.
  rewrite Hh, Hs, Hp. simpl. lia.
Qed.

Lemma pipeline_absent vh m :
  m ∈ METRICS -> vh !! m = None ->
  exists k, patient_monitoring_pipeline_integrated polyfit round2 vh
            = Raise (KeyError k).
Proof.
  intros Hin Hm.
  unfold patient_monitoring_pipeline_integrated, pipeline_over.
  generalize loop_init.
  induction METRICS as [|a ms IH]; intros st; [by apply elem_of_nil in Hin|].
  simpl. destruct (vh !! a) as [data|] eqn:Ha.
  - destruct (loop_body polyfit round2 vh a st) as [st1|[k|]] eqn:Hb.
    + apply elem_of_cons in Hin as [->|Hin]; [congruence|].
      simpl. apply (IH Hin).
    + exists k. reflexivity.
    + exfalso. unfold loop_body, getitem in Hb. rewrite Ha in Hb. simpl in Hb.
      destruct data; [discriminate|].
      destruct (RED_FLAG_THRESHOLDS !! a); discriminate.
  - exists a. by rewrite loop_body_absent.
Qed.

(** *** Skipping an empty series *)

Lemma loop_body_delete vh m a st :
  a <> m ->
  loop_body polyfit round2 (delete m vh) a st = loop_body polyfit round2 vh a st.
Proof.
  intros Hne. unfold loop_body, getitem. by rewrite lookup_delete_ne.
Qed.

Lemma run_loop_delete vh m ms st :
  m ∉ ms ->
  run_loop polyfit round2 (delete m vh) ms st = run_loop polyfit round2 vh ms st.
Proof.
  revert st. induction ms as [|a ms IH]; intros st Hni; [reflexivity|].
  apply not_elem_of_cons in Hni as [Hne Hni].
  simpl. rewrite loop_body_delete by done.
  destruct (loop_body polyfit round2 vh a st); simpl; [by apply IH | reflexivity].
Qed.

Lemma run_loop_skip_empty vh m ms st :
  vh !! m = Some [] ->
  run_loop polyfit round2 vh ms st
  = run_loop polyfit round2 vh (filter (fun k => k <> m) ms) st.
Proof.
  intros Hm. revert st. induction ms as [|a ms IH]; intros st; [reflexivity|].
  rewrite filter_cons. destruct (decide (a <> m)) as [Hne|Heq].
  - simpl. destruct (loop_body polyfit round2 vh a st); simpl;
      [apply IH | reflexivity].
  - apply dec_stable in Heq. subst a.
    simpl. rewrite (loop_body_empty vh m st Hm). simpl. apply IH.
Qed.

End ClassifierFacts.

Lemma has_metrics_lookups vh :
  has_metrics vh ->
  exists hr spo2 pain,
    vh !! "heart_rate" = Some hr /\ vh !! "spo2" = Some spo2 /\
    vh !! "pain_score" = Some pain.
Proof.
  intros H. unfold has_metrics, METRICS in H.
  inversion H as [|? ? [hr Hh] H1]; subst.
  inversion H1 as [|? ? [spo2 Hs] H2]; subst.
  inversion H2 as [|? ? [pain Hp] _]; subst.
  by exists hr, spo2, pain.
Qed.

Lemma has_metrics_insert vh m data :
  has_metrics vh -> has_metrics (<[m := data]> vh).
Proof.
  unfold has_metrics. intros H. eapply Forall_impl; [exact H|].
  intros k [x Hx]. simpl.
  destruct (decide (m = k)) as [->|Hne].
  - rewrite lookup_insert_eq. by eexists.
  - rewrite lookup_insert_ne by done. by eexists.
Qed.

Lemma flags_outside_range (data : list Z) :
  (flags "heart_rate" data = true <->
     data <> [] /\ (List.last data 0 < 40 \/ List.last data 0 > 130)) /\
  (flags "spo2" data = true <->
     data <> [] /\ (List.last data 0 < 0 \/ List.last data 0 > 90)) /\
  (flags "pain_score" data = true <->
     data <> [] /\ (List.last data 0 < 8 \/ List.last data 0 > 10)).
Proof.
  destruct data as [|b l].
  - repeat split; try discriminate; intros [H _]; by destruct H.
  - unfold flags.
    change (RED_FLAG_THRESHOLDS !! "heart_rate") with (Some (40, 130)).
    change (RED_FLAG_THRESHOLDS !! "spo2") with (Some (0, 90)).
    change (RED_FLAG_THRESHOLDS !! "pain_score") with (Some (8, 10)).
    rewrite (last_cons_default b b). unfold red_flag_of. simpl fst. simpl snd.
    repeat split; try discriminate;
      rewrite ?orb_true_iff, ?Z.ltb_lt, ?Z.gtb_gt in *; tauto.
Qed.

Section ClassifierClaims.

Variable polyfit : list Z -> list Z -> Z -> float * float.
Variable round2 : float -> float.

(** C1 (evaluation of the code on the scenario): for heart_rate=[72,74],
    spo2=[98,98], pain_score=[1,1] the classifier returns RED_FLAG with
    worsening_count 0 and red_flag_count 2, and two reasons: the latest
    SpO2 reading 98 is above 90 and the latest pain score 1 is below 8, so
    both lie outside their entries of RED_FLAG_THRESHOLDS. *)
Theorem stable_scenario_evaluation :
  exists r,
    patient_monitoring_pipeline_integrated polyfit round2
      (vh_of [72; 74] [98; 98] [1; 1]) = Ok r /\
    overall_status r = "RED_FLAG" /\
    worsening_count r = 0 /\
    red_flag_count r = 2 /\
    reasons r = [ "CRITICAL: Spo2 crossed safety limits.";
                  "CRITICAL: Pain Score crossed safety limits." ].
Proof.
  eexists. split; [vm_compute; reflexivity|]. repeat split.
Qed.

(** C2 (evaluation of the code on single readings): a normal SpO2 of 98
    and a pain score of 1 are both red-flagged, while an SpO2 of 87 and a
    pain score of 9 are not. *)
Theorem red_flag_evaluation :
  (exists r,
     patient_monitoring_pipeline_integrated polyfit round2
       (vh_of [72] [98] [1]) = Ok r /\
     red_flag_count r = 2 /\
     reasons r = [ "CRITICAL: Spo2 crossed safety limits.";
                   "CRITICAL: Pain Score crossed safety limits." ]) /\
  (exists r,
     patient_monitoring_pipeline_integrated polyfit round2
       (vh_of [72] [87] [9]) = Ok r /\
     red_flag_count r = 0 /\
     reasons r = []).
Proof.
  split; (eexists; split; [vm_compute; reflexivity|]); repeat split.
Qed.

(** C3 (evaluation of the code on the scenario): for the deteriorating
    history the classifier returns RED_FLAG with worsening_count 3 but
    red_flag_count 1: only the heart rate 135 is outside its entry of
    RED_FLAG_THRESHOLDS; SpO2 87 lies inside (0, 90) and pain 9 inside
    (8, 10). *)
Theorem deteriorating_scenario_evaluation :
  exists r,
    patient_monitoring_pipeline_integrated polyfit round2
      (vh_of [75; 82; 95; 110; 125; 135] [98; 97; 95; 92; 89; 87]
             [2; 3; 5; 7; 8; 9]) = Ok r /\
    overall_status r = "RED_FLAG" /\
    worsening_count r = 3 /\
    red_flag_count r = 1 /\
    reasons r = [ "Heart Rate is worsening over time.";
                  "CRITICAL: Heart Rate crossed safety limits.";
                  "Spo2 is worsening over time.";
                  "Pain Score is worsening over time." ].
Proof.
  eexists. split; [vm_compute; reflexivity|]. repeat split.
Qed.

(** C4: on every mapping that holds the three monitored metrics the
    classifier returns, and its overall_status is RED_FLAG iff
    red_flag_count >= 1 or worsening_count >= 1, and MONITOR otherwise; so
    one worsening trend without any red flag already gives RED_FLAG. *)
Theorem overall_status_aggregation vh :
  has_metrics vh ->
  exists r,
    patient_monitoring_pipeline_integrated polyfit round2 vh = Ok r /\
    (overall_status r = "RED_FLAG" <->
       red_flag_count r >= 1 \/ worsening_count r >= 1) /\
    (~ (red_flag_count r >= 1 \/ worsening_count r >= 1) ->
       overall_status r = "MONITOR") /\
    (worsening_count r >= 1 -> red_flag_count r = 0 ->
       overall_status r = "RED_FLAG").
Proof.
  intros Hvh.
  destruct (pipeline_counts polyfit round2 vh Hvh) as (r & Hr & _ & _ & _ & Hs).
  exists r. split; [exact Hr|]. rewrite Hs.
  destruct (Z.geb_spec (red_flag_count r) 1),
           (Z.geb_spec (worsening_count r) 1); simpl;
    repeat split; intros; try discriminate; try reflexivity; try lia;
    try tauto.
Qed.

(** C5: on every mapping that holds the three monitored metrics,
    worsening_count counts exactly the metrics whose series is non-empty
    and whose delta (last reading minus first reading) satisfies the rule
    of the metric: spo2 delta < -2, pain_score delta > 2, heart_rate
    delta > 5; a metric of any other name never satisfies the rule. *)
Theorem worsening_counted_by_rule vh hr spo2 pain :
  vh !! "heart_rate" = Some hr ->
  vh !! "spo2" = Some spo2 ->
  vh !! "pain_score" = Some pain ->
  exists r,
    patient_monitoring_pipeline_integrated polyfit round2 vh = Ok r /\
    worsening_count r =
      Z.b2z (worsens "heart_rate" hr) + Z.b2z (worsens "spo2" spo2)
      + Z.b2z (worsens "pain_score" pain) /\
    (worsens "heart_rate" hr = true <-> hr <> [] /\ delta hr > 5) /\
    (worsens "spo2" spo2 = true <-> spo2 <> [] /\ delta spo2 < -2) /\
    (worsens "pain_score" pain = true <-> pain <> [] /\ delta pain > 2) /\
    (forall m data,
       m <> "heart_rate" -> m <> "spo2" -> m <> "pain_score" ->
       worsens m data = false).
Proof.
  intros Hh Hs Hp.
  destruct (pipeline_three polyfit round2 vh hr spo2 pain Hh Hs Hp)
    as (r & Hr & Hw & _).
  exists r. split; [exact Hr|]. split; [exact Hw|].
  split; [|split; [|split]].
  1-3: rewrite worsens_rule; unfold worsening_rule;
    (split; [intros [Hne [[E ?]|[[E ?]|[E ?]]]]; try discriminate E; by split
            | intros [Hne Hd]; split; [exact Hne | tauto]]).
  intros m data H1 H2 H3.
  destruct (worsens m data) eqn:E; [|reflexivity].
  apply worsens_rule in E as [_ [[? _]|[[? _]|[? _]]]]; congruence.
Qed.

(** C9: on a sequence of fewer than two elements calculate_slope returns
    the float 0.0, whatever the fitting routine. *)
Theorem calculate_slope_short (values : list Z) :
  (length values < 2)%nat -> calculate_slope polyfit values = 0%float.
Proof.
  intros H. unfold calculate_slope.
  destruct (Z.ltb_spec (Z.of_nat (length values)) 2); [reflexivity | lia].
Qed.

(** C10: on every mapping that holds the three monitored metrics the
    classifier returns, the reasons list has worsening_count +
    red_flag_count entries, and it is empty iff overall_status is
    MONITOR. *)
Theorem reasons_length_counts vh :
  has_metrics vh ->
  exists r,
    patient_monitoring_pipeline_integrated polyfit round2 vh = Ok r /\
    Z.of_nat (length (reasons r)) = worsening_count r + red_flag_count r /\
    (reasons r = [] <-> overall_status r = "MONITOR").
Proof.
  intros Hvh.
  destruct (pipeline_counts polyfit round2 vh Hvh)
    as (r & Hr & Hw & Hf & Hl & Hs).
  exists r. split; [exact Hr|]. split; [exact Hl|].
  pose proof (count_over_nonneg worsens vh METRICS).
  pose proof (count_over_nonneg flags vh METRICS).
  rewrite Hs.
  destruct (Z.geb_spec (red_flag_count r) 1),
           (Z.geb_spec (worsening_count r) 1); simpl;
    (split; [intros E; rewrite E in Hl; simpl in Hl; try lia; try reflexivity
            | intros E; try discriminate E]).
  destruct (reasons r); [reflexivity | simpl in Hl; lia].
Qed.

(** C6 (amended): on every mapping that holds the three monitored
    metrics, a metric whose series is empty is skipped without any error:
    the classifier returns exactly what it returns, over the remaining
    metrics, on the mapping from which that metric has been removed. *)
Theorem empty_series_skipped vh m :
  has_metrics vh ->
  vh !! m = Some [] ->
  exists r,
    patient_monitoring_pipeline_integrated polyfit round2 vh = Ok r /\
    pipeline_over polyfit round2 (filter (fun k => k <> m) METRICS)
      (delete m vh) = Ok r.
Proof.
  intros Hvh Hm.
  destruct (pipeline_counts polyfit round2 vh Hvh) as (r & Hr & _).
  exists r. split; [exact Hr|].
  rewrite <- Hr.
  unfold patient_monitoring_pipeline_integrated, pipeline_over.
  rewrite run_loop_delete.
  - by rewrite <- run_loop_skip_empty.
  - intros Hin. apply list_elem_of_filter in Hin as [Hne _]. by apply Hne.
Qed.

(** C7 (amended): on every mapping that holds the three monitored
    metrics, appending to one monitored metric a reading that takes its
    delta from not beyond to beyond its worsening threshold increases
    worsening_count by exactly one; red_flag_count changes by at most one
    and may decrease. *)
Theorem appended_worsening_reading vh m data v :
  has_metrics vh ->
  m ∈ METRICS ->
  vh !! m = Some data ->
  ~ worsening_rule m (delta data) ->
  worsening_rule m (delta (data ++ [v])) ->
  exists r r',
    patient_monitoring_pipeline_integrated polyfit round2 vh = Ok r /\
    patient_monitoring_pipeline_integrated polyfit round2
      (<[m := data ++ [v]]> vh) = Ok r' /\
    worsening_count r' = worsening_count r + 1 /\
    red_flag_count r - 1 <= red_flag_count r' <= red_flag_count r + 1.
Proof.
  intros Hvh Hin Hm Hbefore Hafter.
  assert (Hw0 : worsens m data = false).
  { destruct (worsens m data) eqn:E; [|reflexivity].
    apply worsens_rule in E as [_ E]. contradiction. }
  assert (Hw1 : worsens m (data ++ [v]) = true).
  { apply worsens_rule. split; [|exact Hafter]. by destruct data. }
  pose proof (b2z_range (flags m data)) as Hf0.
  pose proof (b2z_range (flags m (data ++ [v]))) as Hf1.
  destruct (has_metrics_lookups vh Hvh) as (hr & spo2 & pain & Hh & Hs & Hp).
  destruct (pipeline_three polyfit round2 vh hr spo2 pain Hh Hs Hp)
    as (r & Hr & Hwc & Hrc).
  exists r.
  unfold METRICS in Hin.
  repeat (apply elem_of_cons in Hin as [->|Hin]);
    [| | | by apply elem_of_nil in Hin].
  - assert (hr = data) as -> by congruence.
    destruct (pipeline_three polyfit round2 (<["heart_rate" := data ++ [v]]> vh)
                (data ++ [v]) spo2 pain) as (r' & Hr' & Hwc' & Hrc');
      [by rewrite lookup_insert_eq | by rewrite lookup_insert_ne
      | by rewrite lookup_insert_ne |].
    exists r'. rewrite Hwc, Hrc, Hwc', Hrc', Hw0, Hw1. simpl.
    repeat split; [exact Hr | exact Hr' | lia | lia | lia].
  - assert (spo2 = data) as -> by congruence.
    destruct (pipeline_three polyfit round2 (<["spo2" := data ++ [v]]> vh)
                hr (data ++ [v]) pain) as (r' & Hr' & Hwc' & Hrc');
      [by rewrite lookup_insert_ne | by rewrite lookup_insert_eq
      | by rewrite lookup_insert_ne |].
    exists r'. rewrite Hwc, Hrc, Hwc', Hrc', Hw0, Hw1. simpl.
    repeat split; [exact Hr | exact Hr' | lia | lia | lia].
  - assert (pain = data) as -> by congruence.
    destruct (pipeline_three polyfit round2 (<["pain_score" := data ++ [v]]> vh)
                hr spo2 (data ++ [v])) as (r' & Hr' & Hwc' & Hrc');
      [by rewrite lookup_insert_ne | by rewrite lookup_insert_ne
      | by rewrite lookup_insert_eq |].
    exists r'. rewrite Hwc, Hrc, Hwc', Hrc', Hw0, Hw1. simpl.
    repeat split; [exact Hr | exact Hr' | lia | lia | lia].
Qed.

End ClassifierClaims.

(** ** The workflow *)

Section WorkflowClaims.

Variable polyfit : list Z -> list Z -> Z -> float * float.
Variable round2 : float -> float.

(** Lines 114-126 change nothing once the three keys are set. *)
Lemma initialise_store (s : session) : initialise (store s) = s.
Proof. by destruct s. Qed.

(** C8 (amended): from the summary stage (page Patient Triage, step 5,
    summary drawn), the Finish action sets the step to 0 and the page to
    Home and leaves the encounter data as it is; the initialisation of the
    next run does not touch it, and Start Real Triage Assessment then
    opens the registration stage on the same data. *)
Theorem finish_keeps_encounter ss d v :
  current_page ss = Some "Patient Triage" ->
  step ss = Some 5 ->
  data ss = Some d ->
  summary polyfit round2 d = Ok v ->
  let ss' := SessionState (Some "Home") (Some 0) (Some d) in
  interact polyfit round2 Finish ss = (Ok tt, ss') /\
  initialise ss' = Session "Home" 0 d /\
  interact polyfit round2 StartRealTriage ss'
  = (Ok tt, SessionState (Some "Patient Triage") (Some 0) (Some d)).
Proof.
  intros Hp Hs Hd Hv. destruct ss as [p n dd]. simpl in Hp, Hs, Hd. subst.
  split; [|split; reflexivity].
  unfold interact, script_run, pages, triage_page, initialise. simpl.
  unfold mbind, script_bind, get_session, liftR. simpl.
  rewrite Hv. reflexivity.
Qed.

End WorkflowClaims.

(** * Closed instances, with the reference numerics *)

(** C6 (counterexample): a mapping without the key spo2 is not skipped
    over: the classifier raises KeyError. *)
Lemma absent_metric_raises :
  let vh : gmap string (list Z) :=
    <["heart_rate" := [72; 74]]> (<["pain_score" := [1; 1]]> ∅) in
  vh !! "spo2" = None /\
  classify vh = Raise (KeyError "spo2").
Proof. split; reflexivity. Qed.

(** C7 (counterexample): with heart_rate=[35] and the other series empty,
    appending 41 takes the heart-rate delta from 0 to 6, beyond its
    threshold of 5, and red_flag_count decreases from 1 to 0. *)
Lemma appended_reading_clears_red_flag :
  let vh := vh_of [35] [] [] in
  has_metrics vh /\
  vh !! "heart_rate" = Some [35] /\
  ~ worsening_rule "heart_rate" (delta [35]) /\
  worsening_rule "heart_rate" (delta ([35] ++ [41])) /\
  exists r r',
    classify vh = Ok r /\
    classify (<["heart_rate" := [35] ++ [41]]> vh) = Ok r' /\
    red_flag_count r = 1 /\
    red_flag_count r' = 0 /\
    red_flag_count r' < red_flag_count r.
Proof.
  simpl. split; [repeat constructor; by eexists|].
  split; [reflexivity|].
  split.
  { unfold worsening_rule, delta. simpl.
    intros [[E _]|[[E _]|[_ H]]]; [discriminate E | discriminate E | lia]. }
  split.
  { right; right. split; [reflexivity|]. unfold delta. simpl. lia. }
  do 2 eexists.
  split; [vm_compute; reflexivity|].
  split; [vm_compute; reflexivity|].
  simpl. repeat split; lia.
Qed.

(** C8 (counterexample): after Finish at the summary stage the encounter
    of the patient is still in the session: name, vitals history and
    symptom are those entered, not the initial values. *)
Lemma finish_does_not_clear :
  current_page session_at_summary = Some "Patient Triage" /\
  step session_at_summary = Some 5 /\
  snd (interact Numerics.polyfit Numerics.round2 Finish session_at_summary)
  = SessionState (Some "Home") (Some 0) (Some encounter_at_summary) /\
  patient_info encounter_at_summary <> patient_info initial_data /\
  vitals_history encounter_at_summary <> vitals_history initial_data /\
  main_symptom encounter_at_summary <> main_symptom initial_data.
Proof.
  split; [vm_compute; reflexivity|].
  split; [vm_compute; reflexivity|].
  split; [vm_compute; reflexivity|].
  split; [discriminate|].
  split; [|discriminate].
  intros E. apply (f_equal (fun m => m !! "spo2")) in E.
  vm_compute in E. discriminate E.
Qed.

(** *** Instances of the theorems *)

Lemma overall_status_aggregation_witness :
  has_metrics (vh_of [100; 110] [] []) /\
  exists r,
    classify (vh_of [100; 110] [] []) = Ok r /\
    (overall_status r = "RED_FLAG" <->
       red_flag_count r >= 1 \/ worsening_count r >= 1) /\
    (~ (red_flag_count r >= 1 \/ worsening_count r >= 1) ->
       overall_status r = "MONITOR") /\
    (worsening_count r >= 1 -> red_flag_count r = 0 ->
       overall_status r = "RED_FLAG").
Proof.
  assert (H : has_metrics (vh_of [100; 110] [] []))
    by (repeat constructor; by eexists).
  split; [exact H|].
  exact (overall_status_aggregation Numerics.polyfit Numerics.round2 _ H).
Defined.

Lemma worsening_counted_by_rule_witness :
  exists r,
    classify (vh_of [70; 80] [98; 95] [1; 2]) = Ok r /\
    worsening_count r =
      Z.b2z (worsens "heart_rate" [70; 80]) + Z.b2z (worsens "spo2" [98; 95])
      + Z.b2z (worsens "pain_score" [1; 2]).
Proof.
  destruct (worsening_counted_by_rule Numerics.polyfit Numerics.round2
              (vh_of [70; 80] [98; 95] [1; 2]) [70; 80] [98; 95] [1; 2]
              eq_refl eq_refl eq_refl) as (r & Hr & Hw & _).
  exists r. split; [exact Hr | exact Hw].
Defined.

Lemma calculate_slope_short_witness :
  (length [72] < 2)%nat /\ calculate_slope Numerics.polyfit [72] = 0%float.
Proof.
  assert (H : (length [72] < 2)%nat) by (simpl; lia).
  split; [exact H|].
  exact (calculate_slope_short Numerics.polyfit [72] H).
Defined.

Lemma reasons_length_counts_witness :
  has_metrics (vh_of [75; 82; 95] [98; 97; 95] [2; 3; 5]) /\
  exists r,
    classify (vh_of [75; 82; 95] [98; 97; 95] [2; 3; 5]) = Ok r /\
    Z.of_nat (length (reasons r)) = worsening_count r + red_flag_count r /\
    (reasons r = [] <-> overall_status r = "MONITOR").
Proof.
  assert (H : has_metrics (vh_of [75; 82; 95] [98; 97; 95] [2; 3; 5]))
    by (repeat constructor; by eexists).
  split; [exact H|].
  exact (reasons_length_counts Numerics.polyfit Numerics.round2 _ H).
Defined.

Lemma empty_series_skipped_witness :
  has_metrics (vh_of [72; 74] [] [1; 1]) /\
  vh_of [72; 74] [] [1; 1] !! "spo2" = Some [] /\
  exists r,
    classify (vh_of [72; 74] [] [1; 1]) = Ok r /\
    pipeline_over Numerics.polyfit Numerics.round2
      (filter (fun k => k <> "spo2") METRICS)
      (delete "spo2" (vh_of [72; 74] [] [1; 1])) = Ok r.
Proof.
  assert (H : has_metrics (vh_of [72; 74] [] [1; 1]))
    by (repeat constructor; by eexists).
  split; [exact H|]. split; [reflexivity|].
  exact (empty_series_skipped Numerics.polyfit Numerics.round2 _ "spo2"
           H eq_refl).
Defined.

Lemma appended_worsening_reading_witness :
  exists r r',
    classify (vh_of [72] [98] [1]) = Ok r /\
    classify (<["heart_rate" := [72] ++ [80]]> (vh_of [72] [98] [1])) = Ok r' /\
    worsening_count r' = worsening_count r + 1 /\
    red_flag_count r - 1 <= red_flag_count r' <= red_flag_count r + 1.
Proof.
  apply (appended_worsening_reading Numerics.polyfit Numerics.round2
           (vh_of [72] [98] [1]) "heart_rate" [72] 80).
  - repeat constructor; by eexists.
  - unfold METRICS. apply elem_of_cons. by left.
  - reflexivity.
  - unfold worsening_rule, delta. simpl.
    intros [[E _]|[[E _]|[_ H]]]; [discriminate E | discriminate E | lia].
  - right; right. split; [reflexivity|]. unfold delta. simpl. lia.
Defined.

Lemma finish_keeps_encounter_witness :
  current_page session_at_summary = Some "Patient Triage" /\
  step session_at_summary = Some 5 /\
  data session_at_summary = Some encounter_at_summary /\
  interact Numerics.polyfit Numerics.round2 Finish session_at_summary
  = (Ok tt, SessionState (Some "Home") (Some 0) (Some encounter_at_summary)) /\
  initialise (SessionState (Some "Home") (Some 0) (Some encounter_at_summary))
  = Session "Home" 0 encounter_at_summary /\
  interact Numerics.polyfit Numerics.round2 StartRealTriage
    (SessionState (Some "Home") (Some 0) (Some encounter_at_summary))
  = (Ok tt, SessionState (Some "Patient Triage") (Some 0)
                         (Some encounter_at_summary)).
Proof.
  assert (Hp : current_page session_at_summary = Some "Patient Triage")
    by (vm_compute; reflexivity).
  assert (Hs : step session_at_summary = Some 5) by (vm_compute; reflexivity).
  assert (Hd : data session_at_summary = Some encounter_at_summary)
    by (vm_compute; reflexivity).
  assert (Hv : exists v, summary Numerics.polyfit Numerics.round2
                           encounter_at_summary = Ok v)
    by (eexists; vm_compute; reflexivity).
  destruct Hv as [v Hv].
  split; [exact Hp|]. split; [exact Hs|]. split; [exact Hd|].
  exact (finish_keeps_encounter Numerics.polyfit Numerics.round2
           session_at_summary encounter_at_summary v Hp Hs Hd Hv).
Defined.

(** * Further properties of the classifier *)

Section ClassifierMore.

Variable polyfit : list Z -> list Z -> Z -> float * float.
Variable round2 : float -> float.

Lemma loop_body_full vh metric st data :
  vh !! metric = Some data ->
  is_Some (RED_FLAG_THRESHOLDS !! metric) ->
  loop_body polyfit round2 vh metric st
  = Ok (LoopState
          (ls_metric_results st ++ row_of polyfit round2 metric data)
          (ls_worsening_count st + Z.b2z (worsens metric data))
          (ls_red_flag_count st + Z.b2z (flags metric data))
          (ls_reasons st ++ reasons_of metric data)).
Proof.
  intros Hd [bounds Hb].
  unfold loop_body, getitem, row_of, reasons_of, flags. rewrite Hd, Hb.
  destruct data as [|b l]; simpl.
  - destruct st; simpl. by rewrite !app_nil_r, !Z.add_0_r.
  - destruct st as [rows wc rc rs]; simpl.
    destruct (is_worsening_of metric _), (red_flag_of bounds _); simpl;
      rewrite ?Z.add_0_r, ?app_nil_r, <- ?app_assoc; reflexivity.
Qed.

Lemma pipeline_full vh hr spo2 pain :
  vh !! "heart_rate" = Some hr ->
  vh !! "spo2" = Some spo2 ->
  vh !! "pain_score" = Some pain ->
  patient_monitoring_pipeline_integrated polyfit round2 vh
  = Ok (finish_analysis
          (LoopState
             (row_of polyfit round2 "heart_rate" hr
              ++ row_of polyfit round2 "spo2" spo2
              ++ row_of polyfit round2 "pain_score" pain)
             (Z.b2z (worsens "heart_rate" hr) + Z.b2z (worsens "spo2" spo2)
              + Z.b2z (worsens "pain_score" pain))
             (Z.b2z (flags "heart_rate" hr) + Z.b2z (flags "spo2" spo2)
              + Z.b2z (flags "pain_score" pain))
             (reasons_of "heart_rate" hr ++ reasons_of "spo2" spo2
              ++ reasons_of "pain_score" pain))).
Proof.
  intros Hh Hs Hp.
  unfold patient_monitoring_pipeline_integrated, pipeline_over, METRICS.
  cbn [run_loop].
  rewrite (loop_body_full vh "heart_rate" loop_init hr Hh) by by eexists.
  cbn [mbind result_bind].
  rewrite (loop_body_full vh "spo2" _ spo2 Hs) by by eexists.
  cbn [mbind result_bind].
  rewrite (loop_body_full vh "pain_score" _ pain Hp) by by eexists.
  cbn [mbind result_bind ls_metric_results ls_worsening_count
       ls_red_flag_count ls_reasons loop_init].
  rewrite <- !app_assoc. reflexivity.
Qed.

(** X1: the table of the result has one row for each monitored metric
    whose series is not empty, in the order heart rate, SpO2, pain score;
    a row shows the display name of the metric, Worsening or Stable, the
    critical alert, and the rounded slope of the series. *)
Theorem metrics_rows vh hr spo2 pain :
  vh !! "heart_rate" = Some hr ->
  vh !! "spo2" = Some spo2 ->
  vh !! "pain_score" = Some pain ->
  exists r,
    patient_monitoring_pipeline_integrated polyfit round2 vh = Ok r /\
    metrics r = row_of polyfit round2 "heart_rate" hr
                ++ row_of polyfit round2 "spo2" spo2
                ++ row_of polyfit round2 "pain_score" pain /\
    display_name "heart_rate" = "Heart Rate" /\
    display_name "spo2" = "Spo2" /\
    display_name "pain_score" = "Pain Score" /\
    length (metrics r)
    = length (filter (fun d => d <> []) [hr; spo2; pain]).
Proof.
  intros Hh Hs Hp. eexists. split; [by apply pipeline_full|].
  cbn [metrics finish_analysis ls_metric_results].
  repeat split. destruct hr, spo2, pain; reflexivity.
Qed.

(** X2: the reasons are grouped by metric in the order heart rate, SpO2,
    pain score; within a metric the worsening sentence comes before the
    critical one. *)
Theorem reasons_order vh hr spo2 pain :
  vh !! "heart_rate" = Some hr ->
  vh !! "spo2" = Some spo2 ->
  vh !! "pain_score" = Some pain ->
  exists r,
    patient_monitoring_pipeline_integrated polyfit round2 vh = Ok r /\
    reasons r =
      (if worsens "heart_rate" hr
       then ["Heart Rate is worsening over time."] else [])
      ++ (if flags "heart_rate" hr
          then ["CRITICAL: Heart Rate crossed safety limits."] else [])
      ++ (if worsens "spo2" spo2
          then ["Spo2 is worsening over time."] else [])
      ++ (if flags "spo2" spo2
          then ["CRITICAL: Spo2 crossed safety limits."] else [])
      ++ (if worsens "pain_score" pain
          then ["Pain Score is worsening over time."] else [])
      ++ (if flags "pain_score" pain
          then ["CRITICAL: Pain Score crossed safety limits."] else []).
Proof.
  intros Hh Hs Hp. eexists. split; [by apply pipeline_full|].
  cbn [reasons finish_analysis ls_reasons]. unfold reasons_of.
  rewrite <- !app_assoc. reflexivity.
Qed.

(** X4: when a monitored metric is not a key of the mapping, the
    classifier raises KeyError for the first such metric in the order of
    METRICS; otherwise it returns. *)
Theorem first_missing_key vh :
  match first_missing vh with
  | Some k =>
      patient_monitoring_pipeline_integrated polyfit round2 vh
      = Raise (KeyError k)
  | None =>
      exists r, patient_monitoring_pipeline_integrated polyfit round2 vh = Ok r
  end.
Proof.
  unfold first_missing, METRICS. cbn [List.find].
  destruct (vh !! "heart_rate") as [hr|] eqn:Hh.
  2:{ rewrite bool_decide_eq_true_2 by done.
      unfold patient_monitoring_pipeline_integrated, pipeline_over, METRICS.
      cbn [run_loop]. by rewrite loop_body_absent. }
  rewrite bool_decide_eq_false_2 by done.
  destruct (vh !! "spo2") as [spo2|] eqn:Hs.
  2:{ rewrite bool_decide_eq_true_2 by done.
      unfold patient_monitoring_pipeline_integrated, pipeline_over, METRICS.
      cbn [run_loop].
      rewrite (loop_body_full vh "heart_rate" _ hr Hh) by by eexists.
      cbn [mbind result_bind]. by rewrite loop_body_absent. }
  rewrite bool_decide_eq_false_2 by done.
  destruct (vh !! "pain_score") as [pain|] eqn:Hp.
  2:{ rewrite bool_decide_eq_true_2 by done.
      unfold patient_monitoring_pipeline_integrated, pipeline_over, METRICS.
      cbn [run_loop].
      rewrite (loop_body_full vh "heart_rate" _ hr Hh) by by eexists.
      cbn [mbind result_bind].
      rewrite (loop_body_full vh "spo2" _ spo2 Hs) by by eexists.
      cbn [mbind result_bind]. by rewrite loop_body_absent. }
  rewrite bool_decide_eq_false_2 by done.
  eexists. by apply pipeline_full.
Qed.

(** X5: the classifier reads the three monitored keys only: two mappings
    that agree on them, whatever else they hold, get the same result or
    the same exception. *)
Theorem only_monitored_keys_read vh vh' :
  (forall m, m ∈ METRICS -> vh !! m = vh' !! m) ->
  patient_monitoring_pipeline_integrated polyfit round2 vh
  = patient_monitoring_pipeline_integrated polyfit round2 vh'.
Proof.
  intros Hagree.
  unfold patient_monitoring_pipeline_integrated, pipeline_over.
  generalize loop_init. revert Hagree.
  induction METRICS as [|m ms IH]; intros Hagree st; [reflexivity|].
  cbn [run_loop].
  assert (Hb : loop_body polyfit round2 vh m st
               = loop_body polyfit round2 vh' m st).
  { unfold loop_body, getitem. rewrite (Hagree m) by apply list_elem_of_here.
    reflexivity. }
  rewrite Hb.
  destruct (loop_body polyfit round2 vh' m st) as [st1|e]; [|reflexivity].
  cbn [mbind result_bind].
  assert (Hrec : forall st0,
            (st' ← run_loop polyfit round2 vh ms st0; Ok (finish_analysis st'))
            = (st' ← run_loop polyfit round2 vh' ms st0;
               Ok (finish_analysis st'))).
  { apply IH. intros k Hk. apply Hagree. by apply list_elem_of_further. }
  specialize (Hrec st1).
  destruct (run_loop polyfit round2 vh ms st1),
           (run_loop polyfit round2 vh' ms st1);
    cbn [mbind result_bind] in *; congruence.
Qed.

End ClassifierMore.

Lemma worsens_ends metric data : worsens metric (ends data) = worsens metric data.
Proof. destruct data as [|b l]; reflexivity. Qed.

Lemma flags_ends metric data : flags metric (ends data) = flags metric data.
Proof. destruct data as [|b l]; reflexivity. Qed.

Lemma row_labels_row_of p1 r1 p2 r2 metric data data' :
  worsens metric data = worsens metric data' ->
  flags metric data = flags metric data' ->
  (data = [] <-> data' = []) ->
  map row_labels (row_of p1 r1 metric data)
  = map row_labels (row_of p2 r2 metric data').
Proof.
  intros Hw Hf Hnil.
  destruct data as [|b l], data' as [|b' l'].
  - reflexivity.
  - exfalso. destruct Hnil as [H1 _]. by specialize (H1 eq_refl).
  - exfalso. destruct Hnil as [_ H2]. by specialize (H2 eq_refl).
  - unfold row_of. rewrite Hw, Hf. reflexivity.
Qed.

(** X3: the fitted slope is shown, never used to decide: with any two
    fitting and rounding routines the classifier gives the same status,
    the same counts, the same reasons and the same row labels. *)
Theorem slope_never_decides
    (polyfit1 polyfit2 : list Z -> list Z -> Z -> float * float)
    (round2a round2b : float -> float) vh :
  has_metrics vh ->
  exists r1 r2,
    patient_monitoring_pipeline_integrated polyfit1 round2a vh = Ok r1 /\
    patient_monitoring_pipeline_integrated polyfit2 round2b vh = Ok r2 /\
    overall_status r1 = overall_status r2 /\
    worsening_count r1 = worsening_count r2 /\
    red_flag_count r1 = red_flag_count r2 /\
    reasons r1 = reasons r2 /\
    map row_labels (metrics r1) = map row_labels (metrics r2).
Proof.
  intros Hvh.
  destruct (has_metrics_lookups vh Hvh) as (hr & spo2 & pain & Hh & Hs & Hp).
  do 2 eexists.
  split; [by apply pipeline_full|]. split; [by apply pipeline_full|].
  cbn [overall_status worsening_count red_flag_count reasons metrics
       finish_analysis ls_metric_results ls_worsening_count ls_red_flag_count
       ls_reasons].
  repeat split.
  rewrite !map_app.
  by rewrite (row_labels_row_of polyfit1 round2a polyfit2 round2b "heart_rate" hr hr),
    (row_labels_row_of polyfit1 round2a polyfit2 round2b "spo2" spo2 spo2),
    (row_labels_row_of polyfit1 round2a polyfit2 round2b "pain_score" pain pain).
Qed.

Section ClassifierEnds.

Variable polyfit : list Z -> list Z -> Z -> float * float.
Variable round2 : float -> float.

Lemma ends_nil_iff data : data = [] <-> ends data = [].
Proof. destruct data; split; intros H; done. Qed.

(** X6: only the first and the last reading of a series are compared:
    replacing every series by these two readings leaves the status, the
    counts, the reasons and the row labels unchanged. *)
Theorem only_ends_matter vh hr spo2 pain :
  vh !! "heart_rate" = Some hr ->
  vh !! "spo2" = Some spo2 ->
  vh !! "pain_score" = Some pain ->
  exists r r',
    patient_monitoring_pipeline_integrated polyfit round2 vh = Ok r /\
    patient_monitoring_pipeline_integrated polyfit round2
      (vh_of (ends hr) (ends spo2) (ends pain)) = Ok r' /\
    overall_status r' = overall_status r /\
    worsening_count r' = worsening_count r /\
    red_flag_count r' = red_flag_count r /\
    reasons r' = reasons r /\
    map row_labels (metrics r') = map row_labels (metrics r).
Proof.
  intros Hh Hs Hp. do 2 eexists.
  split; [by apply pipeline_full|].
  split; [by apply pipeline_full|].
  cbn [overall_status worsening_count red_flag_count reasons metrics
       finish_analysis ls_metric_results ls_worsening_count ls_red_flag_count
       ls_reasons].
  unfold reasons_of. rewrite !worsens_ends, !flags_ends.
  repeat split.
  rewrite !map_app.
  rewrite (row_labels_row_of polyfit round2 polyfit round2 "heart_rate"
             (ends hr) hr),
    (row_labels_row_of polyfit round2 polyfit round2 "spo2" (ends spo2) spo2),
    (row_labels_row_of polyfit round2 polyfit round2 "pain_score"
       (ends pain) pain);
    auto using worsens_ends, flags_ends; symmetry; apply ends_nil_iff.
Qed.

(** X7: with at most one reading per metric no trend is reported: the
    worsening count is 0, every row is Stable and shows the rounding of
    the slope 0.0, and the fitting routine is not consulted. *)
Theorem single_readings_no_trend vh hr spo2 pain :
  vh !! "heart_rate" = Some hr ->
  vh !! "spo2" = Some spo2 ->
  vh !! "pain_score" = Some pain ->
  (length hr <= 1)%nat -> (length spo2 <= 1)%nat -> (length pain <= 1)%nat ->
  exists r,
    patient_monitoring_pipeline_integrated polyfit round2 vh = Ok r /\
    worsening_count r = 0 /\
    Forall (fun row => row_Trend row = "Stable" /\
                       row_Slope row = round2 0%float) (metrics r).
Proof.
  intros Hh Hs Hp Lh Ls Lp. eexists. split; [by apply pipeline_full|].
  cbn [worsening_count metrics finish_analysis ls_metric_results
       ls_worsening_count].
  assert (Hshort : forall m d, (length d <= 1)%nat ->
            worsens m d = false /\
            Forall (fun row => row_Trend row = "Stable" /\
                               row_Slope row = round2 0%float)
                   (row_of polyfit round2 m d)).
  { intros m [|b [|c l]] Hl; simpl in Hl; try lia.
    - split; [reflexivity | constructor].
    - assert (Hw : worsens m [b] = false).
      { destruct (worsens m [b]) eqn:E; [|reflexivity].
        apply worsens_rule in E as [_ E]. unfold worsening_rule, delta in E.
        simpl in E. lia. }
      split; [exact Hw|]. unfold row_of. rewrite Hw.
      repeat constructor. }
  destruct (Hshort "heart_rate" hr Lh) as [-> Fh].
  destruct (Hshort "spo2" spo2 Ls) as [-> Fs].
  destruct (Hshort "pain_score" pain Lp) as [-> Fp].
  split; [reflexivity|]. by repeat apply Forall_app_2.
Qed.

(** X8: on a mapping that holds the three monitored metrics the result
    has at most three rows, each count lies between 0 and 3, no count
    exceeds the number of rows, and there are at most six reasons. *)
Theorem result_bounds vh :
  has_metrics vh ->
  exists r,
    patient_monitoring_pipeline_integrated polyfit round2 vh = Ok r /\
    (length (metrics r) <= 3)%nat /\
    0 <= worsening_count r <= Z.of_nat (length (metrics r)) /\
    0 <= red_flag_count r <= Z.of_nat (length (metrics r)) /\
    (length (reasons r) <= 6)%nat.
Proof.
  intros Hvh.
  destruct (has_metrics_lookups vh Hvh) as (hr & spo2 & pain & Hh & Hs & Hp).
  eexists. split; [by apply pipeline_full|].
  cbn [overall_status worsening_count red_flag_count reasons metrics
       finish_analysis ls_metric_results ls_worsening_count ls_red_flag_count
       ls_reasons].
  unfold reasons_of. rewrite !length_app.
  assert (Hone : forall m d,
            (length (row_of polyfit round2 m d) <= 1)%nat /\
            0 <= Z.b2z (worsens m d)
              <= Z.of_nat (length (row_of polyfit round2 m d)) /\
            0 <= Z.b2z (flags m d)
              <= Z.of_nat (length (row_of polyfit round2 m d))).
  { intros m [|b l]; [simpl; lia|].
    unfold row_of. simpl length.
    destruct (worsens m (b :: l)), (flags m (b :: l)); simpl; lia. }
  destruct (Hone "heart_rate" hr) as (? & ? & ?).
  destruct (Hone "spo2" spo2) as (? & ? & ?).
  destruct (Hone "pain_score" pain) as (? & ? & ?).
  repeat split; try lia.
  destruct (worsens "heart_rate" hr), (flags "heart_rate" hr),
    (worsens "spo2" spo2), (flags "spo2" spo2),
    (worsens "pain_score" pain), (flags "pain_score" pain); simpl; lia.
Qed.

(** X9: red_flag_count counts the monitored metrics with a non-empty
    series whose latest reading is strictly below the first or strictly
    above the second number of its entry in RED_FLAG_THRESHOLDS: below 40
    or above 130 for heart_rate, below 0 or above 90 for spo2, below 8 or
    above 10 for pain_score. *)
Theorem red_flag_counted_by_table vh hr spo2 pain :
  vh !! "heart_rate" = Some hr ->
  vh !! "spo2" = Some spo2 ->
  vh !! "pain_score" = Some pain ->
  exists r,
    patient_monitoring_pipeline_integrated polyfit round2 vh = Ok r /\
    red_flag_count r =
      Z.b2z (flags "heart_rate" hr) + Z.b2z (flags "spo2" spo2)
      + Z.b2z (flags "pain_score" pain) /\
    (flags "heart_rate" hr = true <->
       hr <> [] /\ (List.last hr 0 < 40 \/ List.last hr 0 > 130)) /\
    (flags "spo2" spo2 = true <->
       spo2 <> [] /\ (List.last spo2 0 < 0 \/ List.last spo2 0 > 90)) /\
    (flags "pain_score" pain = true <->
       pain <> [] /\ (List.last pain 0 < 8 \/ List.last pain 0 > 10)).
Proof.
  intros Hh Hs Hp. eexists. split; [by apply pipeline_full|].
  split; [reflexivity|].
  split; [apply (flags_outside_range hr)|].
  split; [apply (flags_outside_range spo2) | apply (flags_outside_range pain)].
Qed.

End ClassifierEnds.

(** * Further properties of the workflow *)

Section WorkflowMore.

Variable polyfit : list Z -> list Z -> Z -> float * float.
Variable round2 : float -> float.

Lemma pages_noclick_state s : snd (pages polyfit round2 NoClick s) = s.
Proof.
  destruct s as [p n d]. script_unfold.
  repeat (first [reflexivity | case_match];
          cbn beta iota zeta delta [s_current_page s_step s_data fst snd]).
Qed.

Lemma interact_state e ss :
  snd (interact polyfit round2 e ss)
  = store (snd (pages polyfit round2 e (initialise ss))).
Proof.
  unfold interact, script_run.
  destruct (pages polyfit round2 e (initialise ss)) as [r s'] eqn:E.
  destruct r as [[]|[k|]]; try reflexivity.
  rewrite initialise_store.
  pose proof (pages_noclick_state s') as H.
  destruct (pages polyfit round2 NoClick s') as [r2 s2]. simpl in *.
  by subst.
Qed.

(** X15: an action whose button is not drawn on the current page and
    step changes nothing in the session. *)
Theorem hidden_button_ignored e ss :
  shown e (initialise ss) = false ->
  snd (interact polyfit round2 e ss) = store (initialise ss).
Proof.
  rewrite interact_state. intros H. f_equal. revert H.
  destruct (initialise ss) as [p n d]. unfold shown.
  destruct e; script_unfold; script_cases.
Qed.

(** X13: moving between pages never touches the encounter: a run without
    a click, Start Real Triage Assessment, Finish and Back to Home leave
    the data of the session as it is, whether the page is drawn or raises. *)
Theorem navigation_keeps_data e ss :
  e ∈ [NoClick; StartRealTriage; Finish; BackToHome] ->
  data (snd (interact polyfit round2 e ss)) = Some (s_data (initialise ss)).
Proof.
  rewrite interact_state. intros He.
  destruct (initialise ss) as [p n d].
  repeat (apply elem_of_cons in He as [->|He]);
    [| | | | by apply elem_of_nil in He];
    unfold store; cbn [data]; f_equal; script_unfold; script_cases.
Qed.

(** X14: no action removes a photo: once a file is attached to the
    encounter, the photo after any action is that file or the file of a
    later upload. *)
Theorem photo_never_cleared e ss f :
  photo (s_data (initialise ss)) = Some f ->
  let after := photo (s_data (initialise (snd (interact polyfit round2 e ss)))) in
  after = Some f \/
  exists g complete, e = PhotoStep (Some g) complete /\ after = Some g.
Proof.
  rewrite interact_state, initialise_store. intros Hf.
  destruct (initialise ss) as [p n d]. cbn [s_data] in Hf.
  destruct e; cbn zeta; script_unfold;
    script_cases; cbn [photo with_photo with_patient_info with_rf
                       with_vitals_history with_esi with_main_symptom];
    try (by left); right; eauto.
Qed.

Lemma vh_of_lookups hr spo2 pain :
  vh_of hr spo2 pain !! "heart_rate" = Some hr /\
  vh_of hr spo2 pain !! "spo2" = Some spo2 /\
  vh_of hr spo2 pain !! "pain_score" = Some pain.
Proof. repeat split. Qed.

Lemma vh_of_inserts hr spo2 pain h sp pn :
  <["pain_score" := pain ++ [pn]]>
    (<["spo2" := spo2 ++ [sp]]>
       (<["heart_rate" := hr ++ [h]]> (vh_of hr spo2 pain)))
  = vh_of (hr ++ [h]) (spo2 ++ [sp]) (pain ++ [pn]).
Proof. reflexivity. Qed.

Lemma append_three {A : Type} (k : script A) s hr spo2 pain h sp pn :
  vitals_history (s_data s) = vh_of hr spo2 pain ->
  (append_reading "heart_rate" h;; append_reading "spo2" sp;;
   append_reading "pain_score" pn;; k) s
  = k (Session (s_current_page s) (s_step s)
               (with_vitals_history
                  (vh_of (hr ++ [h]) (spo2 ++ [sp]) (pain ++ [pn]))
                  (s_data s))).
Proof.
  destruct s as [p n d]. cbn [s_data s_current_page s_step]. intros Hvh.
  unfold append_reading, set_data, get_data, liftR, getitem,
    mbind, script_bind.
  cbn [s_data s_current_page s_step vitals_history with_vitals_history].
  rewrite Hvh.
  change (vh_of hr spo2 pain !! "heart_rate") with (Some hr). cbn iota beta.
  change (<["heart_rate":=hr ++ [h]]> (vh_of hr spo2 pain) !! "spo2")
    with (Some spo2). cbn iota beta.
  change (<["spo2":=spo2 ++ [sp]]>
            (<["heart_rate":=hr ++ [h]]> (vh_of hr spo2 pain)) !! "pain_score")
    with (Some pain). cbn iota beta.
  reflexivity.
Qed.

(** X12: at step 2 of a session whose history holds the three series,
    Next appends exactly one reading at the end of each series, changes
    nothing else in the encounter, and leads to step 3. *)
Theorem next_appends_one_reading ss d hr spo2 pain h sp pn :
  current_page ss = Some "Patient Triage" ->
  step ss = Some 2 ->
  data ss = Some d ->
  vitals_history d = vh_of hr spo2 pain ->
  interact polyfit round2 (Next h sp pn) ss
  = (Ok tt,
     SessionState (Some "Patient Triage") (Some 3)
       (Some (with_vitals_history
                (vh_of (hr ++ [h]) (spo2 ++ [sp]) (pain ++ [pn])) d))).
Proof.
  intros Hp Hs Hd Hvh. destruct ss as [p n dd]. simpl in Hp, Hs, Hd. subst.
  unfold interact, script_run, initialise.
  cbn [current_page step data].
  unfold pages, triage_page, get_session.
  unfold mbind at 1, script_bind at 1.
  cbn beta iota zeta delta [s_current_page String.eqb Ascii.eqb Bool.eqb].
  unfold mbind at 1, script_bind at 1.
  cbn beta iota zeta delta [s_step Z.eqb Pos.eqb].
  rewrite (append_three _ (Session "Patient Triage" 2 d) hr spo2 pain h sp pn Hvh).
  reflexivity.
Qed.

Lemma interact_triage e n d :
  snd (interact polyfit round2 e
         (SessionState (Some "Patient Triage") (Some n) (Some d)))
  = store (snd (triage_page polyfit round2 e (Session "Patient Triage" n d))).
Proof. rewrite interact_state. reflexivity. Qed.

(** X17: one pass through the triage page.  From the registration step
    of a session whose history holds the three series, the five actions
    Begin Assessment, Continue, Next, Analyze Flow and, for a wound or
    fever symptom only, Complete lead to the summary step; the encounter
    then holds the entries of the pass, one more reading in each series,
    and the photo uploaded in the pass or else the one it had. *)
Theorem triage_pass d hr spo2 pain nm ag q1 q2 h sp pn symp c1 up :
  vitals_history d = vh_of hr spo2 pain ->
  interactions polyfit round2
    ([BeginAssessment nm ag; Continue q1 q2; Next h sp pn;
      AnalyzeFlow symp c1]
     ++ (if needs_photo symp then [PhotoStep up true] else []))
    (SessionState (Some "Patient Triage") (Some 0) (Some d))
  = SessionState (Some "Patient Triage") (Some 5)
      (Some (Encounter (PatientInfo nm ag) (RF q1 q2)
               (vh_of (hr ++ [h]) (spo2 ++ [sp]) (pain ++ [pn]))
               (ESI c1)
               (if needs_photo symp
                then match up with Some f => Some f | None => photo d end
                else photo d)
               symp)).
Proof.
  intros Hvh. destruct d as [pi0 rf0 vh0 esi0 ph0 ms0]. cbn [vitals_history] in Hvh.
  subst vh0. cbn [app interactions].
  rewrite interact_triage.
  change (snd (triage_page polyfit round2 (BeginAssessment nm ag)
                 (Session "Patient Triage" 0
                    (Encounter pi0 rf0 (vh_of hr spo2 pain) esi0 ph0 ms0))))
    with (Session "Patient Triage" 1
            (Encounter (PatientInfo nm ag) rf0 (vh_of hr spo2 pain)
                       esi0 ph0 ms0)).
  unfold store at 1. cbn [s_current_page s_step s_data].
  rewrite interact_triage.
  change (snd (triage_page polyfit round2 (Continue q1 q2)
                 (Session "Patient Triage" 1
                    (Encounter (PatientInfo nm ag) rf0 (vh_of hr spo2 pain)
                               esi0 ph0 ms0))))
    with (Session "Patient Triage" 2
            (Encounter (PatientInfo nm ag) (RF q1 q2) (vh_of hr spo2 pain)
                       esi0 ph0 ms0)).
  unfold store at 1. cbn [s_current_page s_step s_data].
  rewrite (next_appends_one_reading
             (SessionState (Some "Patient Triage") (Some 2)
                (Some (Encounter (PatientInfo nm ag) (RF q1 q2)
                         (vh_of hr spo2 pain) esi0 ph0 ms0)))
             (Encounter (PatientInfo nm ag) (RF q1 q2)
                (vh_of hr spo2 pain) esi0 ph0 ms0)
             hr spo2 pain h sp pn eq_refl eq_refl eq_refl eq_refl).
  cbn [snd with_vitals_history patient_info rf esi photo main_symptom].
  rewrite interact_triage.
  unfold triage_page, get_session, set_data, set_step, rerun, raise,
    mbind, script_bind.
  cbn beta iota zeta delta
    [s_step s_data s_current_page Z.eqb Pos.eqb snd fst
     with_main_symptom with_esi patient_info rf vitals_history esi photo
     main_symptom].
  fold (needs_photo symp).
  destruct (needs_photo symp).
  - unfold store at 1. cbn [s_current_page s_step s_data interactions].
    rewrite interact_triage.
    unfold triage_page, get_session, set_data, set_step, rerun, raise,
      mbind, mret, script_bind, script_ret.
    cbn beta iota zeta delta
      [s_step s_data s_current_page Z.eqb Pos.eqb snd fst].
    destruct up; reflexivity.
  - reflexivity.
Qed.

Lemma assoc_getitem_ok {V : Type} (d : list (string * V)) k :
  k ∈ map fst d -> exists v, assoc_getitem d k = Ok v /\ (k, v) ∈ d.
Proof.
  induction d as [|[k' v'] d IH]; intros Hin; [by apply elem_of_nil in Hin|].
  cbn [assoc_getitem]. destruct (String.eqb_spec k k') as [->|Hne].
  - exists v'. split; [reflexivity | apply list_elem_of_here].
  - cbn [map fst] in Hin. apply elem_of_cons in Hin as [?|Hin]; [done|].
    destruct (IH Hin) as (v & Hv & Hm). exists v.
    split; [exact Hv | by apply list_elem_of_further].
Qed.

Lemma assoc_getitem_raise {V : Type} (d : list (string * V)) k :
  k ∉ map fst d -> assoc_getitem d k = Raise (KeyError k).
Proof.
  induction d as [|[k' v'] d IH]; intros Hni; [reflexivity|].
  cbn [assoc_getitem]. cbn [map fst] in Hni.
  apply not_elem_of_cons in Hni as [Hne Hni].
  destruct (String.eqb_spec k k'); [done | by apply IH].
Qed.

Lemma summary_ok s :
  session_ok s -> exists v, summary polyfit round2 (s_data s) = Ok v.
Proof.
  intros ((hr & spo2 & pain & Hvh & _) & Hsym & _).
  destruct (assoc_getitem_ok SPECIALIST_MAP _ Hsym) as (sp & Hsp & _).
  unfold summary. rewrite Hvh.
  rewrite (pipeline_full polyfit round2 (vh_of hr spo2 pain) hr spo2 pain)
    by reflexivity.
  cbn [mbind result_bind].
  change (getitem (vh_of hr spo2 pain) "heart_rate") with (Ok hr).
  change (getitem (vh_of hr spo2 pain) "spo2") with (Ok spo2).
  cbn [mbind result_bind]. rewrite Hsp. cbn [mbind result_bind].
  by eexists.
Qed.

Lemma pages_noclick_ok s :
  session_ok s -> pages polyfit round2 NoClick s = (Ok tt, s).
Proof.
  intros Hok. destruct (summary_ok s Hok) as [v Hv].
  destruct Hok as ((hr & spo2 & pain & Hvh & _) & Hsym & _).
  destruct (assoc_getitem_ok SPECIALIST_MAP _ Hsym) as (sp & Hsp & _).
  pose proof (pipeline_full polyfit round2 (vh_of hr spo2 pain) hr spo2 pain
                eq_refl eq_refl eq_refl) as Hpipe.
  rewrite <- Hvh in Hpipe.
  destruct s as [p n d]. cbn [s_data] in *. script_unfold.
  repeat (first [ reflexivity | rewrite Hv | rewrite Hsp | rewrite Hpipe
                | case_match ];
          cbn beta iota zeta delta [s_current_page s_step s_data fst snd]).
Qed.

Lemma append_three_at {A : Type} (k : script A) p n d hr spo2 pain h sp pn :
  vitals_history d = vh_of hr spo2 pain ->
  (append_reading "heart_rate" h;; append_reading "spo2" sp;;
   append_reading "pain_score" pn;; k) (Session p n d)
  = k (Session p n
         (with_vitals_history
            (vh_of (hr ++ [h]) (spo2 ++ [sp]) (pain ++ [pn])) d)).
Proof. intros H. by rewrite (append_three k (Session p n d) hr spo2 pain). Qed.

Lemma session_ok_init : session_ok (initialise empty_session_state).
Proof.
  split; [by exists [], [], []|].
  split; [apply list_elem_of_In; simpl; tauto|].
  split; [apply list_elem_of_here | simpl; lia].
Qed.

Lemma pages_step e s :
  widget_valid e -> session_ok s ->
  exists r s',
    pages polyfit round2 e s = (r, s') /\ session_ok s' /\
    (r = Ok tt \/ r = Raise RerunException).
Proof.
  intros Hvalid Hok. destruct (summary_ok s Hok) as [v Hv].
  destruct Hok as ((hr & spo2 & pain & Hvh & Hl1 & Hl2) & Hsym & Hpage & Hstep).
  destruct (assoc_getitem_ok SPECIALIST_MAP _ Hsym) as (spc & Hsp & _).
  pose proof (pipeline_full polyfit round2 (vh_of hr spo2 pain) hr spo2 pain
                eq_refl eq_refl eq_refl) as Hpipe.
  rewrite <- Hvh in Hpipe.
  destruct s as [p n d]. cbn [s_data s_current_page s_step] in *.
  assert (Hleaf : forall p' n' d',
            ((exists hr spo2 pain,
                vitals_history d' = vh_of hr spo2 pain /\
                length hr = length spo2 /\ length spo2 = length pain) /\
             main_symptom d' ∈ symptom_options /\
             p' ∈ ["Home"; "Patient Triage"; "Clinician Portal"] /\
             0 <= n' <= 5) ->
            session_ok (Session p' n' d')) by (intros ? ? ? H; exact H).
  assert (Hvitals : exists hr spo2 pain,
            vitals_history d = vh_of hr spo2 pain /\
            length hr = length spo2 /\ length spo2 = length pain)
    by (exists hr, spo2, pain; repeat split; assumption).
  assert (Hhome : "Home" ∈ ["Home"; "Patient Triage"; "Clinician Portal"])
    by (apply list_elem_of_In; simpl; tauto).
  assert (Htri : "Patient Triage"
                 ∈ ["Home"; "Patient Triage"; "Clinician Portal"])
    by (apply list_elem_of_In; simpl; tauto).
  assert (Hcli : "Clinician Portal"
                 ∈ ["Home"; "Patient Triage"; "Clinician Portal"])
    by (apply list_elem_of_In; simpl; tauto).
  unfold pages, get_session. unfold mbind at 1, script_bind at 1.
  cbn beta iota zeta delta [s_current_page s_step s_data].
  destruct (String.eqb p "Home").
  { unfold home_page. destruct e; script_leaf.
    all: do 2 eexists; split; [reflexivity|]; split; [apply Hleaf | by (left + right)].
    all: cbn [vitals_history main_symptom with_patient_info
              with_vitals_history with_main_symptom].
    all: repeat split; try assumption; try lia.
    - by eexists _, _, _.
    - apply list_elem_of_In; simpl; tauto. }
  destruct (String.eqb p "Patient Triage").
  { unfold triage_page, get_session. unfold mbind at 1, script_bind at 1.
    cbn beta iota zeta delta [s_current_page s_step s_data].
    destruct (Z.eqb_spec n 0) as [->|].
    { destruct e; script_leaf;
        (do 2 eexists; split; [reflexivity|]; split; [apply Hleaf | by (left + right)]);
        cbn [vitals_history main_symptom with_patient_info];
        repeat split; try assumption; try lia. }
    destruct (Z.eqb_spec n 1) as [->|].
    { destruct e; script_leaf;
        (do 2 eexists; split; [reflexivity|]; split; [apply Hleaf | by (left + right)]);
        cbn [vitals_history main_symptom with_rf];
        repeat split; try assumption; try lia. }
    destruct (Z.eqb_spec n 2) as [->|].
    { destruct e;
        try rewrite (append_three_at _ p 2 d hr spo2 pain _ _ _ Hvh);
        script_leaf;
        (do 2 eexists; split; [reflexivity|]; split; [apply Hleaf | by (left + right)]);
        cbn [vitals_history main_symptom with_vitals_history];
        repeat split; try assumption; try lia.
      eexists _, _, _. split; [reflexivity|].
      rewrite !length_app. simpl. lia. }
    destruct (Z.eqb_spec n 3) as [->|].
    { destruct e; script_leaf;
        (do 2 eexists; split; [reflexivity|]; split; [apply Hleaf | by (left + right)]);
        cbn [vitals_history main_symptom with_esi with_main_symptom
             widget_valid] in *;
        repeat split; try assumption; try lia; try (by destruct Hvalid);
        case_match; lia. }
    destruct (Z.eqb_spec n 4) as [->|].
    { destruct e as [| | | | | | |up complete| |]; script_leaf;
        try destruct up; try destruct complete; script_leaf;
        (do 2 eexists; split; [reflexivity|]; split; [apply Hleaf | by (left + right)]);
        cbn [vitals_history main_symptom with_photo];
        repeat split; try assumption; try lia. }
    destruct (Z.eqb_spec n 5) as [->|].
    { unfold liftR. unfold mbind at 1, script_bind at 1. rewrite Hv.
      destruct e; script_leaf;
        (do 2 eexists; split; [reflexivity|]; split; [apply Hleaf | by (left + right)]);
        repeat split; try assumption; try lia. }
    script_leaf. do 2 eexists; split; [reflexivity|]; split; [apply Hleaf | by left].
    repeat split; try assumption; lia. }
  destruct (String.eqb p "Clinician Portal").
  { unfold clinician_portal.
    destruct e;
      try (unfold get_data, liftR, mbind, script_bind;
           cbn beta iota zeta delta [s_data]; rewrite Hpipe, Hsp);
      script_leaf;
      (do 2 eexists; split; [reflexivity|]; split; [apply Hleaf | by (left + right)]);
      repeat split; try assumption; try lia. }
  script_leaf. do 2 eexists; split; [reflexivity|]; split; [apply Hleaf | by left].
  repeat split; try assumption; lia.
Qed.

Lemma interactions_ok es ss :
  session_ok (initialise ss) ->
  Forall widget_valid es ->
  session_ok (initialise (interactions polyfit round2 es ss)).
Proof.
  revert ss. induction es as [|e es IH]; intros ss Hok Hes; [exact Hok|].
  inversion Hes as [|? ? He Hes']; subst.
  cbn [interactions]. apply IH; [|exact Hes'].
  rewrite interact_state, initialise_store.
  destruct (pages_step e (initialise ss) He Hok) as (r & s' & Hp & Hok' & _).
  by rewrite Hp.
Qed.

(** X10: every session reached from a fresh browser session by actions
    whose values come from the widgets keeps the history in shape: it
    holds exactly the three series, all of one length; the symptom is a
    key of SPECIALIST_MAP; the page is one of the three pages and the step
    lies between 0 and 5. *)
Theorem reachable_sessions_ok es :
  Forall widget_valid es ->
  session_ok (initialise (interactions polyfit round2 es empty_session_state)).
Proof. apply interactions_ok, session_ok_init. Qed.

(** X11: in such a session no action ends in an exception: the run, and
    the rerun it may ask for, draw their page to the end; in particular
    the classifier and the specialist lookup never raise KeyError. *)
Theorem no_exception_in_sessions es e :
  Forall widget_valid es ->
  widget_valid e ->
  fst (interact polyfit round2 e
         (interactions polyfit round2 es empty_session_state)) = Ok tt.
Proof.
  intros Hes He.
  pose proof (reachable_sessions_ok es Hes) as Hok.
  destruct (pages_step e _ He Hok) as (r & s' & Hp & Hok' & Hr).
  unfold interact, script_run. rewrite Hp.
  destruct Hr as [->| ->]; [reflexivity|].
  rewrite initialise_store, (pages_noclick_ok s' Hok'). reflexivity.
Qed.

(** X21: the specialist lookup has no default: with a symptom that is not
    a key of SPECIALIST_MAP the summary page stops with KeyError before it
    draws its Finish button, so Finish leaves step, page and data alone. *)
Theorem unmapped_symptom_raises d hr spo2 pain :
  vitals_history d = vh_of hr spo2 pain ->
  main_symptom d ∉ symptom_options ->
  summary polyfit round2 d = Raise (KeyError (main_symptom d)) /\
  interact polyfit round2 Finish
    (SessionState (Some "Patient Triage") (Some 5) (Some d))
  = (Raise (KeyError (main_symptom d)),
     SessionState (Some "Patient Triage") (Some 5) (Some d)).
Proof.
  intros Hvh Hsym.
  assert (Hs : summary polyfit round2 d = Raise (KeyError (main_symptom d))).
  { unfold summary. rewrite Hvh.
    rewrite (pipeline_full polyfit round2 (vh_of hr spo2 pain) hr spo2 pain)
      by reflexivity.
    cbn [mbind result_bind].
    change (getitem (vh_of hr spo2 pain) "heart_rate") with (Ok hr).
    change (getitem (vh_of hr spo2 pain) "spo2") with (Ok spo2).
    cbn [mbind result_bind].
    by rewrite (assoc_getitem_raise SPECIALIST_MAP _ Hsym). }
  split; [exact Hs|].
  unfold interact, script_run, initialise. cbn [current_page step data].
  unfold pages, triage_page, get_session, liftR, mbind, script_bind.
  cbn beta iota zeta delta [s_current_page s_step s_data String.eqb Ascii.eqb
                            Bool.eqb Z.eqb Pos.eqb].
  rewrite Hs. reflexivity.
Qed.

(** X18: recorded readings are never removed or changed except by the
    simulation: after any other action the history is the same, or, for
    Next, the same with one reading appended to each series. *)
Theorem history_only_appended e ss hr spo2 pain :
  vitals_history (s_data (initialise ss)) = vh_of hr spo2 pain ->
  e <> HourlyCheckup ->
  let vh' :=
    vitals_history (s_data (initialise (snd (interact polyfit round2 e ss)))) in
  vh' = vh_of hr spo2 pain \/
  exists h sp pn,
    e = Next h sp pn /\
    vh' = vh_of (hr ++ [h]) (spo2 ++ [sp]) (pain ++ [pn]).
Proof.
  rewrite interact_state, initialise_store. intros Hvh Hne.
  destruct (initialise ss) as [p n d]. cbn [s_data] in Hvh. cbn zeta.
  destruct e as [| | | | |h sp pn| | | |]; try done.
  5:{ assert (Hnext : exists s',
                snd (pages polyfit round2 (Next h sp pn) (Session p n d)) = s'
                /\ (s' = Session p n d \/
                    s' = Session p 3
                           (with_vitals_history
                              (vh_of (hr ++ [h]) (spo2 ++ [sp]) (pain ++ [pn]))
                              d))).
      { unfold pages, get_session. unfold mbind at 1, script_bind at 1.
        cbn beta iota zeta delta [s_current_page s_step s_data].
        destruct (String.eqb p "Home"); [by eexists; split; [|left]|].
        destruct (String.eqb p "Patient Triage").
        - unfold triage_page, get_session.
          unfold mbind at 1, script_bind at 1.
          cbn beta iota zeta delta [s_current_page s_step s_data].
          destruct (n =? 0); [by eexists; split; [|left]|].
          destruct (n =? 1); [by eexists; split; [|left]|].
          destruct (n =? 2).
          + rewrite (append_three_at _ p n d hr spo2 pain h sp pn Hvh).
            script_leaf. by eexists; split; [|right].
          + destruct (n =? 3); [by eexists; split; [|left]|].
            destruct (n =? 4); [by eexists; split; [|left]|].
            destruct (n =? 5); [|by eexists; split; [|left]].
            script_leaf.
            destruct (summary polyfit round2 d); by eexists; split; [|left].
        - destruct (String.eqb p "Clinician Portal");
            [|by eexists; split; [|left]].
          unfold clinician_portal. script_leaf.
          destruct (patient_monitoring_pipeline_integrated polyfit round2
                      (vitals_history d)); [|by eexists; split; [|left]].
          destruct (assoc_getitem SPECIALIST_MAP (main_symptom d));
            by eexists; split; [|left]. }
      destruct Hnext as (s' & -> & [->| ->]); cbn [s_data].
      - by left.
      - right. by exists h, sp, pn. }
  all: left; script_unfold; script_cases.
Qed.

End WorkflowMore.

(** *** Instances of the further properties *)

Lemma metrics_rows_witness :
  exists r,
    classify (vh_of [70; 80] [] [9]) = Ok r /\
    length (metrics r) = 2%nat.
Proof.
  destruct (metrics_rows Numerics.polyfit Numerics.round2
              (vh_of [70; 80] [] [9]) [70; 80] [] [9]
              eq_refl eq_refl eq_refl) as (r & Hr & _ & _ & _ & _ & Hlen).
  exists r. split; [exact Hr | exact Hlen].
Defined.

Lemma reasons_order_witness :
  exists r,
    classify (vh_of [75; 82; 135] [98; 97; 87] [2; 3; 9]) = Ok r /\
    reasons r = [ "Heart Rate is worsening over time.";
                  "CRITICAL: Heart Rate crossed safety limits.";
                  "Spo2 is worsening over time.";
                  "Pain Score is worsening over time." ].
Proof.
  destruct (reasons_order Numerics.polyfit Numerics.round2
              (vh_of [75; 82; 135] [98; 97; 87] [2; 3; 9])
              [75; 82; 135] [98; 97; 87] [2; 3; 9]
              eq_refl eq_refl eq_refl) as (r & Hr & Hreasons).
  exists r. split; [exact Hr | exact Hreasons].
Defined.

Lemma slope_never_decides_witness :
  has_metrics (vh_of [70; 80] [98; 95] [1; 2]) /\
  exists r1 r2,
    classify (vh_of [70; 80] [98; 95] [1; 2]) = Ok r1 /\
    patient_monitoring_pipeline_integrated
      (fun _ _ _ => (1%float, 0%float)) (fun f => f)
      (vh_of [70; 80] [98; 95] [1; 2]) = Ok r2 /\
    overall_status r1 = overall_status r2 /\
    worsening_count r1 = worsening_count r2 /\
    red_flag_count r1 = red_flag_count r2 /\
    reasons r1 = reasons r2 /\
    map row_labels (metrics r1) = map row_labels (metrics r2).
Proof.
  assert (H : has_metrics (vh_of [70; 80] [98; 95] [1; 2]))
    by (repeat constructor; by eexists).
  split; [exact H|].
  exact (slope_never_decides Numerics.polyfit
           (fun _ _ _ => (1%float, 0%float)) Numerics.round2 (fun f => f) _ H).
Defined.

Lemma only_monitored_keys_read_witness :
  classify (vh_of [72] [98] [1])
  = classify (<["temperature" := [37]]> (vh_of [72] [98] [1])).
Proof.
  apply (only_monitored_keys_read Numerics.polyfit Numerics.round2).
  intros m Hm. unfold METRICS in Hm.
  repeat (apply elem_of_cons in Hm as [->|Hm]); try reflexivity.
  by apply elem_of_nil in Hm.
Defined.

Lemma only_ends_matter_witness :
  exists r r',
    classify (vh_of [75; 82; 95; 110] [98; 97; 95; 92] [2; 3; 5; 7]) = Ok r /\
    classify (vh_of (ends [75; 82; 95; 110]) (ends [98; 97; 95; 92])
                    (ends [2; 3; 5; 7])) = Ok r' /\
    overall_status r' = overall_status r /\
    worsening_count r' = worsening_count r /\
    red_flag_count r' = red_flag_count r /\
    reasons r' = reasons r /\
    map row_labels (metrics r') = map row_labels (metrics r).
Proof.
  exact (only_ends_matter Numerics.polyfit Numerics.round2
           (vh_of [75; 82; 95; 110] [98; 97; 95; 92] [2; 3; 5; 7])
           [75; 82; 95; 110] [98; 97; 95; 92] [2; 3; 5; 7]
           eq_refl eq_refl eq_refl).
Defined.

Lemma single_readings_no_trend_witness :
  exists r,
    classify (vh_of [75] [98] [2]) = Ok r /\
    worsening_count r = 0 /\
    Forall (fun row => row_Trend row = "Stable" /\
                       row_Slope row = Numerics.round2 0%float) (metrics r).
Proof.
  apply (single_readings_no_trend Numerics.polyfit Numerics.round2
           (vh_of [75] [98] [2]) [75] [98] [2]);
    first [reflexivity | simpl; lia].
Defined.

Lemma result_bounds_witness :
  has_metrics (vh_of [75; 135] [98; 87] [2; 9]) /\
  exists r,
    classify (vh_of [75; 135] [98; 87] [2; 9]) = Ok r /\
    (length (metrics r) <= 3)%nat /\
    0 <= worsening_count r <= Z.of_nat (length (metrics r)) /\
    0 <= red_flag_count r <= Z.of_nat (length (metrics r)) /\
    (length (reasons r) <= 6)%nat.
Proof.
  assert (H : has_metrics (vh_of [75; 135] [98; 87] [2; 9]))
    by (repeat constructor; by eexists).
  split; [exact H|].
  exact (result_bounds Numerics.polyfit Numerics.round2 _ H).
Defined.

Lemma red_flag_counted_by_table_witness :
  exists r,
    classify (vh_of [135] [98] [9]) = Ok r /\
    red_flag_count r =
      Z.b2z (flags "heart_rate" [135]) + Z.b2z (flags "spo2" [98])
      + Z.b2z (flags "pain_score" [9]).
Proof.
  destruct (red_flag_counted_by_table Numerics.polyfit Numerics.round2
              (vh_of [135] [98] [9]) [135] [98] [9]
              eq_refl eq_refl eq_refl) as (r & Hr & Hc & _).
  exists r. split; [exact Hr | exact Hc].
Defined.

Lemma reachable_sessions_ok_witness :
  session_ok (initialise session_at_summary).
Proof.
  apply (reachable_sessions_ok Numerics.polyfit Numerics.round2
           [ StartRealTriage; BeginAssessment "Asha" "34"; Continue "No" "No";
             Next 75 98 2; AnalyzeFlow "Chest Pain" "No" ]).
  repeat constructor; simpl; try lia; apply list_elem_of_In; simpl; tauto.
Defined.

Lemma no_exception_in_sessions_witness :
  fst (interact Numerics.polyfit Numerics.round2 Finish session_at_summary)
  = Ok tt.
Proof.
  apply (no_exception_in_sessions Numerics.polyfit Numerics.round2
           [ StartRealTriage; BeginAssessment "Asha" "34"; Continue "No" "No";
             Next 75 98 2; AnalyzeFlow "Chest Pain" "No" ] Finish).
  - repeat constructor; simpl; try lia; apply list_elem_of_In; simpl; tauto.
  - exact I.
Defined.

Lemma next_appends_one_reading_witness :
  interact Numerics.polyfit Numerics.round2 (Next 80 96 3)
    (SessionState (Some "Patient Triage") (Some 2) (Some encounter_at_summary))
  = (Ok tt,
     SessionState (Some "Patient Triage") (Some 3)
       (Some (with_vitals_history
                (vh_of ([75] ++ [80]) ([98] ++ [96]) ([2] ++ [3]))
                encounter_at_summary))).
Proof.
  exact (next_appends_one_reading Numerics.polyfit Numerics.round2
           (SessionState (Some "Patient Triage") (Some 2)
              (Some encounter_at_summary))
           encounter_at_summary [75] [98] [2] 80 96 3
           eq_refl eq_refl eq_refl eq_refl).
Defined.

Lemma navigation_keeps_data_witness :
  data (snd (interact Numerics.polyfit Numerics.round2 BackToHome
               (SessionState (Some "Clinician Portal") (Some 3)
                  (Some encounter_at_summary))))
  = Some encounter_at_summary.
Proof.
  apply (navigation_keeps_data Numerics.polyfit Numerics.round2 BackToHome
           (SessionState (Some "Clinician Portal") (Some 3)
              (Some encounter_at_summary))).
  apply list_elem_of_In. simpl. tauto.
Defined.

Lemma photo_never_cleared_witness :
  let ss := SessionState (Some "Patient Triage") (Some 5)
              (Some (with_photo (Some "wound.jpg") encounter_at_summary)) in
  let after :=
    photo (s_data (initialise
                     (snd (interact Numerics.polyfit Numerics.round2
                             Finish ss)))) in
  after = Some "wound.jpg" \/
  exists g complete, Finish = PhotoStep (Some g) complete /\ after = Some g.
Proof.
  exact (photo_never_cleared Numerics.polyfit Numerics.round2 Finish
           (SessionState (Some "Patient Triage") (Some 5)
              (Some (with_photo (Some "wound.jpg") encounter_at_summary)))
           "wound.jpg" eq_refl).
Defined.

Lemma hidden_button_ignored_witness :
  snd (interact Numerics.polyfit Numerics.round2 Finish empty_session_state)
  = store (initialise empty_session_state).
Proof.
  exact (hidden_button_ignored Numerics.polyfit Numerics.round2 Finish
           empty_session_state eq_refl).
Defined.

Lemma triage_pass_witness :
  interactions Numerics.polyfit Numerics.round2
    ([ BeginAssessment "Asha" "34"; Continue "No" "Yes"; Next 75 98 2;
       AnalyzeFlow "Wound/Skin" "No" ]
     ++ (if needs_photo "Wound/Skin"
         then [PhotoStep (Some "wound.jpg") true] else []))
    (SessionState (Some "Patient Triage") (Some 0) (Some initial_data))
  = SessionState (Some "Patient Triage") (Some 5)
      (Some (Encounter (PatientInfo "Asha" "34") (RF "No" "Yes")
               (vh_of ([] ++ [75]) ([] ++ [98]) ([] ++ [2]))
               (ESI "No")
               (if needs_photo "Wound/Skin"
                then Some "wound.jpg" else photo initial_data)
               "Wound/Skin")).
Proof.
  exact (triage_pass Numerics.polyfit Numerics.round2 initial_data [] [] []
           "Asha" "34" "No" "Yes" 75 98 2 "Wound/Skin" "No"
           (Some "wound.jpg") eq_refl).
Defined.

Lemma history_only_appended_witness :
  let ss := SessionState (Some "Patient Triage") (Some 5)
              (Some encounter_at_summary) in
  let vh' :=
    vitals_history
      (s_data (initialise
                 (snd (interact Numerics.polyfit Numerics.round2 Finish ss)))) in
  vh' = vh_of [75] [98] [2] \/
  exists h sp pn,
    Finish = Next h sp pn /\
    vh' = vh_of ([75] ++ [h]) ([98] ++ [sp]) ([2] ++ [pn]).
Proof.
  apply (history_only_appended Numerics.polyfit Numerics.round2 Finish
           (SessionState (Some "Patient Triage") (Some 5)
              (Some encounter_at_summary)) [75] [98] [2]).
  - reflexivity.
  - discriminate.
Defined.

Lemma unmapped_symptom_raises_witness :
  let d := with_main_symptom "Headache" encounter_at_summary in
  summary Numerics.polyfit Numerics.round2 d = Raise (KeyError "Headache") /\
  interact Numerics.polyfit Numerics.round2 Finish
    (SessionState (Some "Patient Triage") (Some 5) (Some d))
  = (Raise (KeyError "Headache"),
     SessionState (Some "Patient Triage") (Some 5) (Some d)).
Proof.
  apply (unmapped_symptom_raises Numerics.polyfit Numerics.round2
           (with_main_symptom "Headache" encounter_at_summary) [75] [98] [2]).
  - reflexivity.
  - rewrite list_elem_of_In. simpl.
    intros [H|[H|[H|[H|[H|[]]]]]]; discriminate H.
Defined.
